(** * cuda_fmt_prettier: a shallow embedding of [__init__.py]

    The plugin loads a layered JSON configuration, resolves a Prettier
    executable, builds its command line and runs it over stdin/stdout.
    This file embeds the Python functions of [__init__.py] as Rocq
    functions and proves properties of them.

    Conventions of the embedding.
    - A Python [str] is a [string]; each [ascii] stands for the code point
      of the same number (code points below 256).
    - A value read by [json.load] is a [json]; a Python [dict] with string
      keys is a [gmap string json] (dict equality ignores insertion order,
      and no function below iterates a dict in order).
    - A Python float is a [spec_float] (IEEE 754 value); [str()] of a
      float, list or dict is the interpreter's, taken as a parameter.
    - An exception is the [Raise] outcome of [result]; [print] and the
      calls that leave the process are recorded as a trace of [event]s. *)

From Stdlib Require Import ZArith String Ascii List Bool Lia.
From Stdlib Require Import Floats.SpecFloat DecimalString.
From stdpp Require Import base option list gmap strings.

Set Warnings "-register-all".
Local Open Scope string_scope.
Local Open Scope list_scope.
Local Open Scope Z_scope.

(** ** Python strings *)

(** [str.isspace] on one character, for code points below 256:
    TAB..CR, FS..US, SPACE, NEL and NBSP. *)
Definition is_space (c : ascii) : bool :=
  let n := N_of_ascii c in
  ((9 <=? n) && (n <=? 13) || (28 <=? n) && (n <=? 32)
   || (n =? 133) || (n =? 160))%N.

(** [s.lstrip()] *)
Fixpoint lstrip (s : string) : string :=
  match s with
  | String c r => if is_space c then lstrip r else s
  | EmptyString => EmptyString
  end.

(** [s.rstrip()] *)
Fixpoint rstrip (s : string) : string :=
  match s with
  | String c r =>
      match rstrip r with
      | EmptyString => if is_space c then EmptyString else String c EmptyString
      | r' => String c r'
      end
  | EmptyString => EmptyString
  end.

(** [s.strip()] *)
Definition strip (s : string) : string := rstrip (lstrip s).

(** [sub in s] for two strings *)
Fixpoint contains (sub s : string) : bool :=
  String.prefix sub s ||
  match s with
  | String _ r => contains sub r
  | EmptyString => false
  end.

(** [s.split(sep)] for a one-character separator *)
Fixpoint split_on (sep : ascii) (s : string) : list string :=
  match s with
  | EmptyString => [EmptyString]
  | String c r =>
      if Ascii.eqb c sep then EmptyString :: split_on sep r
      else match split_on sep r with
           | h :: t => String c h :: t
           | [] => [String c EmptyString]
           end
  end.

(** One pass of [s.split()]: the word in progress at the head of [s], if
    any, and the complete words after it. *)
Fixpoint words_from (s : string) : option string * list string :=
  match s with
  | EmptyString => (None, [])
  | String c r =>
      let '(h, t) := words_from r in
      if is_space c then (None, match h with Some w => w :: t | None => t end)
      else (Some (String c (default EmptyString h)), t)
  end.

(** [s.split()]: the maximal runs of non-whitespace characters *)
Definition split_ws (s : string) : list string :=
  let '(h, t) := words_from s in
  match h with Some w => w :: t | None => t end.

(** [sep.join(l)] *)
Definition join (sep : string) (l : list string) : string := String.concat sep l.

(** [str(z)] for an int *)
Definition str_of_int (z : Z) : string := NilZero.string_of_int (Z.to_int z).

(** ** JSON values and Python objects *)

Inductive json : Type :=
  | JNull
  | JBool (b : bool)
  | JInt (z : Z)
  | JFloat (f : spec_float)
  | JStr (s : string)
  | JList (l : list json)
  | JDict (d : gmap string json).

Inductive exn : Type :=
  | TypeError
  | AttributeError
  | KeyError
  | OSError
  | JSONDecodeError
  | FileNotFoundError
  | TimeoutExpired
  | OtherException.

Inductive result (A : Type) : Type :=
  | Ok (a : A)
  | Raise (e : exn).
Arguments Ok {A} a.
Arguments Raise {A} e.

Definition rbind {A B} (m : result A) (f : A → result B) : result B :=
  match m with
  | Ok a => f a
  | Raise e => Raise e
  end.

Global Instance result_ret : MRet result := fun A a => Ok a.
Global Instance result_bind : MBind result := fun A B f m => rbind m f.

(** Truth value of an object, as [if x:] and [not x] test it. *)
Definition truthy (v : json) : bool :=
  match v with
  | JNull => false
  | JBool b => b
  | JInt z => negb (z =? 0)
  | JFloat (S754_zero _) => false
  | JFloat _ => true
  | JStr s => negb (String.eqb s EmptyString)
  | JList l => match l with [] => false | _ => true end
  | JDict d => negb (bool_decide (d = ∅))
  end.

Definition is_str (v : json) (k : string) : bool :=
  match v with
  | JStr s => String.eqb s k
  | _ => false
  end.

(** [k in o] for a string [k] *)
Definition py_contains (o : json) (k : string) : result bool :=
  match o with
  | JDict d => Ok (bool_decide (is_Some (d !! k)))
  | JStr s => Ok (contains k s)
  | JList l => Ok (existsb (fun v => is_str v k) l)
  | _ => Raise TypeError
  end.

(** [o[k]] for a string [k] *)
Definition py_getitem (o : json) (k : string) : result json :=
  match o with
  | JDict d => match d !! k with Some v => Ok v | None => Raise KeyError end
  | _ => Raise TypeError
  end.

(** [o.get(k, dflt)] and [o.get(k)] *)
Definition py_get (o : json) (k : string) (dflt : json) : result json :=
  match o with
  | JDict d => Ok (default dflt (d !! k))
  | _ => Raise AttributeError
  end.

(** [del o[k]] for a dict that has the key *)
Definition py_delitem (o : json) (k : string) : result json :=
  match o with
  | JDict d => match d !! k with Some _ => Ok (JDict (delete k d)) | None => Raise KeyError end
  | _ => Raise TypeError
  end.

(** [d.update(src)]: the keys of [src] overwrite those of [d]. *)
Definition dict_update (d src : gmap string json) : gmap string json := src ∪ d.

(** A dict literal: later items overwrite earlier ones. *)
Definition dict_of {A} (items : list (string * A)) : gmap string A :=
  fold_left (fun m kv => <[kv.1 := kv.2]> m) items ∅.

(** ** Configuration *)

Definition is_comment_key (k : string) : bool := String.prefix "//" k.

(** The comprehension of [_filter_comments] on a dict. *)
Definition filter_comment_keys (d : gmap string json) : gmap string json :=
  filter (fun kv => is_comment_key kv.1 = false) d.

(** [_filter_comments(config_dict)]: [config_dict.items()] needs a dict. *)
Definition _filter_comments (config_dict : json) : result (gmap string json) :=
  match config_dict with
  | JDict d => Ok (filter_comment_keys d)
  | _ => Raise AttributeError
  end.

(** [DEFAULT_CONFIG['prettier_options']] *)
Definition DEFAULT_OPTIONS : gmap string json := dict_of [
  ("printWidth", JInt 80);
  ("// printWidth", JStr "Line length (default: 80)");
  ("tabWidth", JInt 2);
  ("// tabWidth", JStr "Spaces per indentation (default: 2)");
  ("useTabs", JBool false);
  ("// useTabs", JStr "Use tabs instead of spaces (default: false)");
  ("semi", JBool true);
  ("// semi", JStr "Add semicolons (default: true)");
  ("singleQuote", JBool false);
  ("// singleQuote", JStr "Use single quotes (default: false)");
  ("jsxSingleQuote", JBool false);
  ("// jsxSingleQuote", JStr "Single quotes in JSX (default: false)");
  ("quoteProps", JStr "as-needed");
  ("// quoteProps", JStr "Quote object properties: as-needed | consistent | preserve (default: as-needed)");
  ("trailingComma", JStr "es5");
  ("// trailingComma", JStr "Trailing commas: none | es5 | all (default: es5)");
  ("bracketSpacing", JBool true);
  ("// bracketSpacing", JStr "Spaces in brackets (default: true)");
  ("bracketSameLine", JBool false);
  ("// bracketSameLine", JStr "Put > on same line in HTML/JSX (default: false)");
  ("arrowParens", JStr "always");
  ("// arrowParens", JStr "Arrow function parens: avoid | always (default: always)");
  ("proseWrap", JStr "preserve");
  ("// proseWrap", JStr "Wrap prose: always | never | preserve (default: preserve)");
  ("htmlWhitespaceSensitivity", JStr "css");
  ("// htmlWhitespaceSensitivity", JStr "HTML whitespace: css | strict | ignore (default: css)");
  ("vueIndentScriptAndStyle", JBool false);
  ("// vueIndentScriptAndStyle", JStr "Indent script/style in Vue (default: false)");
  ("endOfLine", JStr "lf");
  ("// endOfLine", JStr "Line ending: auto | lf | crlf | cr (default: lf)");
  ("embeddedLanguageFormatting", JStr "auto");
  ("// embeddedLanguageFormatting", JStr "Format embedded code: auto | off (default: auto)");
  ("singleAttributePerLine", JBool false);
  ("// singleAttributePerLine", JStr "One attribute per line in HTML/JSX (default: false)");
  ("objectWrap", JStr "preserve");
  ("// objectWrap", JStr "Object wrap mode: preserve | collapse (default: preserve, v3.5.0+)");
  ("experimentalTernaries", JBool false);
  ("// experimentalTernaries", JStr "Ternary formatting: false | true (default: false, v3.1.0+, experimental)");
  ("insertPragma", JBool false);
  ("// insertPragma", JStr "Insert @format pragma (default: false)");
  ("requirePragma", JBool false);
  ("// requirePragma", JStr "Only format files with pragma (default: false)");
  ("rangeStart", JInt 0);
  ("// rangeStart", JStr "Format from byte offset (default: 0 = start of file)");
  ("rangeEnd", JStr "Infinity");
  ("// rangeEnd", JStr "Format to byte offset (default: Infinity = end of file)")
].

Definition DEFAULT_CONFIG : gmap string json := dict_of [
  ("prettier_path", JStr "");
  ("// prettier_path", JStr "Custom path to Prettier executable. Leave empty for auto-detection");
  ("timeout_seconds", JInt 10);
  ("// timeout_seconds", JStr "Prettier subprocess timeout in seconds (default: 10)");
  ("use_prettier_config_file", JBool true);
  ("// use_prettier_config_file", JStr "If true, uses .prettierrc from project. If false, uses options below");
  ("// PRETTIER OPTIONS NOTE", JStr "https://prettier.io/docs/en/options.html (only used when use_prettier_config_file=false)");
  ("prettier_options", JDict DEFAULT_OPTIONS)
].

(** ** Effects: the trace of what a call prints and does outside *)

Inductive event : Type :=
  | Print (msg : string)
  (* an f-string that ends with the text of the caught exception *)
  | PrintExc (msg : string) (e : exn)
  (* [os.makedirs] and [json.dump(DEFAULT_CONFIG, f, indent=2)] on the path *)
  | WriteDefaultConfig (path : string)
  (* [subprocess.run(cmd, capture_output=True, timeout=3, ...)] *)
  | Probe (cmd : list string)
  (* [subprocess.Popen(cmd, cwd=cwd, ...)] then [communicate(input, timeout)] *)
  | Spawn (cmd : list string) (input : string) (cwd : option string) (timeout : json).

(** A computation: its outcome and the events it produced on the way. *)
Definition io (A : Type) : Type := result A * list event.

Definition io_ret {A} (a : A) : io A := (Ok a, []).
Definition io_bind {A B} (m : io A) (f : A → io B) : io B :=
  match m with
  | (Ok a, t) => let '(r, t') := f a in (r, t ++ t')
  | (Raise e, t) => (Raise e, t)
  end.
Definition emit (e : event) : io unit := (Ok tt, [e]).
Definition lift {A} (r : result A) : io A := (r, []).

Global Instance io_mret : MRet io := fun A a => io_ret a.
Global Instance io_mbind : MBind io := fun A B f m => io_bind m f.

(** What reading the configuration file gives. *)
Inductive file_read : Type :=
  | Parsed (doc : json)          (* [json.load] returned *)
  | DecodeError                  (* [json.JSONDecodeError] *)
  | ReadError (e : exn).         (* any other exception of [open]/[json.load] *)

(** The part of the machine the plugin looks at. *)
Record world : Type := {
  (* cuda_fmt's [get_config_filename('Prettier')] *)
  fmt_config_filename : option string;
  (* [os.path.join(ct.app_path(ct.APP_DIR_SETTINGS), 'cuda_fmt_prettier.json')] *)
  settings_config_path : string;
  path_exists : string → bool;
  is_file : string → bool;
  (* creating the default file: [None] when it succeeds *)
  create_config : string → option exn;
  read_config : string → file_read;
  IS_WIN : bool;
  (* [os.path.join(os.path.dirname(ct.app_path(ct.APP_DIR_DATA)), 'tools', 'Prettier', name)] *)
  tools_path : string → string;
  (* [os.path.join(os.getcwd(), 'node_modules', '.bin', name)] *)
  local_bin_path : string → string;
  (* [subprocess.run(cmd + ['--version'], timeout=3)]: the return code, or
     [None] when it raises *)
  probe : list string → option Z;
  (* [shutil.which('prettier')] *)
  which_prettier : option string;
  (* [ct.ed.get_prop(ct.PROP_LEXER_FILE)] *)
  ed_lexer : string;
  (* [ct.ed.get_filename()], and [os.path.dirname] of it *)
  ed_filename : string;
  ed_dirname : string;
  (* the child process: what [Popen] and [communicate] give *)
  run_process : list string → string → option string → json → result (Z * string * string)
}.

(** [get_config_path()] *)
Definition get_config_path (w : world) : option string :=
  match fmt_config_filename w with
  | Some config_path =>
      if negb (String.eqb config_path "") then Some config_path
      else Some (settings_config_path w)
  | None => Some (settings_config_path w)
  end.

(** The body of the [try] of [load_config] after [json.load]. *)
Definition merge_user_config (user_config : json) : result (gmap string json) :=
  let config := filter_comment_keys DEFAULT_CONFIG in
  has_options ← py_contains user_config "prettier_options";
  '(config, user_config) ←
    (if has_options : bool then
       user_block ← py_getitem user_config "prettier_options";
       user_options ← _filter_comments user_block;
       options ← py_getitem (JDict config) "prettier_options";
       options ← match options with
                 | JDict d => Ok (JDict (dict_update d user_options))
                 | _ => Raise AttributeError
                 end;
       user_config ← py_delitem user_config "prettier_options";
       Ok (<["prettier_options" := options]> config, user_config)
     else Ok (config, user_config));
  user_config ← _filter_comments user_config;
  Ok (dict_update config user_config).

(** [load_config()] *)
Definition load_config (w : world) : io (gmap string json) :=
  match get_config_path w with
  | None => io_ret (filter_comment_keys DEFAULT_CONFIG)
  | Some config_path =>
      if negb (path_exists w config_path) then
        match create_config w config_path with
        | None => emit (WriteDefaultConfig config_path);;
                  emit (Print "Prettier: Created default config file")
        | Some e => emit (PrintExc "NOTE: Cannot create Prettier config: " e)
        end;;
        io_ret (filter_comment_keys DEFAULT_CONFIG)
      else
        match read_config w config_path with
        | Parsed user_config =>
            match merge_user_config user_config with
            | Ok config => io_ret config
            | Raise e =>
                emit (PrintExc "ERROR: Failed to load Prettier config: " e);;
                io_ret (filter_comment_keys DEFAULT_CONFIG)
            end
        | DecodeError =>
            emit (PrintExc "ERROR: Invalid JSON in Prettier config: " JSONDecodeError);;
            io_ret (filter_comment_keys DEFAULT_CONFIG)
        | ReadError e =>
            emit (PrintExc "ERROR: Failed to load Prettier config: " e);;
            io_ret (filter_comment_keys DEFAULT_CONFIG)
        end
  end.


(** ** Language mapping *)

Definition LEXER_TO_PARSER_items : list (string * string) := [
  ("JavaScript", "babel");
  ("JavaScript Babel", "babel-flow");
  ("TypeScript", "typescript");
  ("CSS", "css");
  ("SCSS", "scss");
  ("LESS", "less");
  ("HTML", "html");
  ("XML", "html");
  ("Markdown", "markdown");
  ("MDX", "mdx");
  ("JSON", "json");
  ("YAML", "yaml");
  ("GraphQL", "graphql");
  ("HTML Handlebars", "html");
  ("HTML Laravel Blade", "html");
  ("HTML Django DTL", "html");
  ("Jinja2", "html");
  ("Twig", "html");
  ("Svelte", "html");
  ("Vue", "vue");
  ("Pug", "pug");
  ("Jade", "pug")
].

Definition LEXER_TO_PARSER : gmap string string := dict_of LEXER_TO_PARSER_items.

(** ** Executable discovery *)

(** [x.strip()] on an object: only a [str] has the method. *)
Definition py_strip (v : json) : result string :=
  match v with
  | JStr s => Ok (strip s)
  | _ => Raise AttributeError
  end.

(** The loop over the bundled executable names. *)
Fixpoint find_bundled (w : world) (names : list string) : io (option string) :=
  match names with
  | [] => mret None
  | exe_name :: rest =>
      let bundled := tools_path w exe_name in
      if is_file w bundled then
        emit (Print ("Prettier: Using bundled version: " +:+ bundled));;
        mret (Some bundled)
      else find_bundled w rest
  end.

(** The loop over the package manager executors. *)
Fixpoint find_package_manager (w : world) (package_managers : list string)
  : io (option string) :=
  match package_managers with
  | [] => mret None
  | pm_cmd :: rest =>
      let cmd_parts := split_ws pm_cmd in
      emit (Probe (cmd_parts ++ ["--version"]));;
      match probe w (cmd_parts ++ ["--version"]) with
      | Some 0 =>
          emit (Print ("Prettier: Using package manager: " +:+ pm_cmd));;
          mret (Some pm_cmd)
      | _ => find_package_manager w rest
      end
  end.

(** [find_prettier_executable(config)] *)
Definition find_prettier_executable (w : world) (config : gmap string json)
  : io (option string) :=
  custom_path ← lift (py_strip (default (JStr "") (config !! "prettier_path")));
  if negb (String.eqb custom_path "") && path_exists w custom_path then
    emit (Print ("Prettier: Using custom path: " +:+ custom_path));;
    mret (Some custom_path)
  else
    bundled ← find_bundled w
      (if IS_WIN w then ["prettier.exe"; "prettier.cmd"] else ["prettier"]);
    match bundled with
    | Some p => mret (Some p)
    | None =>
        let exe_suffix := if IS_WIN w then ".cmd" else "" in
        let local_prettier := local_bin_path w ("prettier" +:+ exe_suffix) in
        if is_file w local_prettier then
          emit (Print ("Prettier: Using local project installation: " +:+ local_prettier));;
          mret (Some local_prettier)
        else
          pm ← find_package_manager w
            (if IS_WIN w
             then ["npx.cmd prettier"; "yarn.cmd exec prettier";
                   "pnpm.cmd exec prettier"; "bunx.cmd prettier"]
             else ["npx prettier"; "yarn exec prettier";
                   "pnpm exec prettier"; "bunx prettier"]);
          match pm with
          | Some c => mret (Some c)
          | None =>
              match which_prettier w with
              | Some path =>
                  if String.eqb path "" then
                    emit (Print "NOTE: Prettier not found - install via npm/yarn/pnpm or configure path");;
                    mret None
                  else
                    emit (Print ("Prettier: Found in PATH: " +:+ path));;
                    mret (Some path)
              | None =>
                  emit (Print "NOTE: Prettier not found - install via npm/yarn/pnpm or configure path");;
                  mret None
              end
          end
    end.

Section Interpreter.

(** [str(v)] of the interpreter for a float, a list or a dict. *)
Variable repr_other : json → string.

(** [str(v)] *)
Definition py_str (v : json) : string :=
  match v with
  | JNull => "None"
  | JBool true => "True"
  | JBool false => "False"
  | JInt z => str_of_int z
  | JStr s => s
  | _ => repr_other v
  end.

(** ** Command line *)

(** The tokens the executable contributes: a package manager executor
    (a path with a space) is split, anything else is one token. *)
Definition seed_tokens (prettier_path : string) : list string :=
  if contains " " prettier_path then split_ws prettier_path else [prettier_path].

(** [if key in options: cmd_parts.extend([flag, str(options[key])])] *)
Definition extend_str (options : json) (key flag : string) (cmd_parts : list json)
  : result (list json) :=
  present ← py_contains options key;
  if present : bool then
    v ← py_getitem options key;
    Ok (cmd_parts ++ [JStr flag; JStr (py_str v)])
  else Ok cmd_parts.

(** [if key in options: cmd_parts.extend([flag, options[key]])] *)
Definition extend_raw (options : json) (key flag : string) (cmd_parts : list json)
  : result (list json) :=
  present ← py_contains options key;
  if present : bool then
    v ← py_getitem options key;
    Ok (cmd_parts ++ [JStr flag; v])
  else Ok cmd_parts.

(** [if options.get(key, False): cmd_parts.append(flag)] *)
Definition append_if (options : json) (key flag : string) (cmd_parts : list json)
  : result (list json) :=
  v ← py_get options key (JBool false);
  Ok (if truthy v then cmd_parts ++ [JStr flag] else cmd_parts).

(** [if not options.get(key, True): cmd_parts.append(flag)] *)
Definition append_unless (options : json) (key flag : string) (cmd_parts : list json)
  : result (list json) :=
  v ← py_get options key (JBool true);
  Ok (if truthy v then cmd_parts else cmd_parts ++ [JStr flag]).

(** [' '.join(cmd_parts)] needs every item to be a [str]. *)
Fixpoint as_strings (cmd_parts : list json) : result (list string) :=
  match cmd_parts with
  | [] => Ok []
  | JStr s :: rest => strs ← as_strings rest; Ok (s :: strs)
  | _ :: _ => Raise TypeError
  end.

(** [print(f"Prettier: Command: {' '.join(cmd_parts)}")] then
    [return cmd_parts] *)
Definition print_and_return (cmd_parts : list json) : io (list string) :=
  strs ← lift (as_strings cmd_parts);
  emit (Print ("Prettier: Command: " +:+ join " " strs));;
  mret strs.

(** The inline options of [build_prettier_command], in source order. *)
Definition inline_options (options : json) (cmd_parts : list json)
  : result (list json) :=
  cmd_parts ← extend_str options "printWidth" "--print-width" cmd_parts;
  cmd_parts ← extend_str options "tabWidth" "--tab-width" cmd_parts;
  cmd_parts ← append_if options "useTabs" "--use-tabs" cmd_parts;
  cmd_parts ← append_unless options "semi" "--no-semi" cmd_parts;
  cmd_parts ← append_if options "singleQuote" "--single-quote" cmd_parts;
  cmd_parts ← append_if options "jsxSingleQuote" "--jsx-single-quote" cmd_parts;
  cmd_parts ← extend_raw options "quoteProps" "--quote-props" cmd_parts;
  cmd_parts ← extend_raw options "trailingComma" "--trailing-comma" cmd_parts;
  cmd_parts ← append_unless options "bracketSpacing" "--no-bracket-spacing" cmd_parts;
  cmd_parts ← append_if options "bracketSameLine" "--bracket-same-line" cmd_parts;
  cmd_parts ← extend_raw options "arrowParens" "--arrow-parens" cmd_parts;
  cmd_parts ← extend_raw options "endOfLine" "--end-of-line" cmd_parts;
  cmd_parts ← extend_raw options "proseWrap" "--prose-wrap" cmd_parts;
  cmd_parts ← extend_raw options "htmlWhitespaceSensitivity"
                "--html-whitespace-sensitivity" cmd_parts;
  cmd_parts ← append_if options "vueIndentScriptAndStyle"
                "--vue-indent-script-and-style" cmd_parts;
  cmd_parts ← extend_raw options "embeddedLanguageFormatting"
                "--embedded-language-formatting" cmd_parts;
  cmd_parts ← append_if options "singleAttributePerLine"
                "--single-attribute-per-line" cmd_parts;
  cmd_parts ← extend_raw options "objectWrap" "--object-wrap" cmd_parts;
  cmd_parts ← append_if options "experimentalTernaries"
                "--experimental-ternaries" cmd_parts;
  cmd_parts ← append_if options "insertPragma" "--insert-pragma" cmd_parts;
  append_if options "requirePragma" "--require-pragma" cmd_parts.

(** [0 if range_start is None else range_start] and its sibling *)
Definition or_default (dflt v : json) : json :=
  match v with
  | JNull => dflt
  | _ => v
  end.

(** The range options of [build_prettier_command]. *)
Definition range_options (options : json) (cmd_parts : list json)
  : result (list json) :=
  range_start ← py_get options "rangeStart" JNull;
  range_end ← py_get options "rangeEnd" JNull;
  let cmd_parts :=
    cmd_parts ++ [JStr "--range-start"; JStr (py_str (or_default (JInt 0) range_start))] in
  Ok (cmd_parts ++ [JStr "--range-end"; JStr (py_str (or_default (JStr "Infinity") range_end))]).

(** [build_prettier_command(prettier_path, parser, config)] *)
Definition build_prettier_command (prettier_path parser : string)
    (config : gmap string json) : io (list string) :=
  let cmd_parts := JStr <$> seed_tokens prettier_path in
  let cmd_parts := cmd_parts ++ [JStr "--parser"; JStr parser] in
  let cmd_parts := cmd_parts ++ [JStr "--no-color"] in
  if truthy (default (JBool true) (config !! "use_prettier_config_file")) then
    print_and_return cmd_parts
  else
    let options := default (JDict ∅) (config !! "prettier_options") in
    cmd_parts ← lift (inline_options options cmd_parts);
    cmd_parts ← lift (range_options options cmd_parts);
    print_and_return cmd_parts.

(** ** The format entry point *)

Definition nl : ascii := "010"%char.
Definition dquote : string := String "034"%char "".

(** [isinstance(timeout, (int, float))]; [bool] is a subclass of [int]. *)
Definition is_int_or_float (v : json) : bool :=
  match v with
  | JBool _ | JInt _ | JFloat _ => true
  | _ => false
  end.

(** [timeout <= 0] for an instance of [int] or [float] *)
Definition le_zero (v : json) : bool :=
  match v with
  | JBool b => negb b
  | JInt z => z <=? 0
  | JFloat f => SFleb f (S754_zero false)
  | _ => false
  end.

(** The timeout validation of [do_format]. *)
Definition checked_timeout (config : gmap string json) : io json :=
  let timeout := default (JInt 10) (config !! "timeout_seconds") in
  if negb (is_int_or_float timeout) || le_zero timeout then
    emit (Print ("NOTE: Invalid timeout '" +:+ py_str timeout +:+ "', using default: 10"));;
    mret (JInt 10)
  else mret timeout.

(** What [do_format] does once [communicate] has returned. *)
Definition on_completion (returncode : Z) (stdout stderr : string)
  : io (option string) :=
  if negb (returncode =? 0) then
    let error_msg := if negb (String.eqb stderr "") then strip stderr else "Unknown error" in
    (if contains "SyntaxError" error_msg || contains "ParseError" error_msg then
       let lines := take 3 (split_on nl error_msg) in
       emit (Print ("ERROR: Prettier syntax error:" +:+ String nl "  "
                    +:+ join (String nl "  ") lines))
     else
       emit (Print ("ERROR: Prettier failed: " +:+ error_msg)));;
    mret None
  else if String.eqb stdout "" then
    emit (Print "ERROR: Prettier returned empty output");;
    mret None
  else mret (Some stdout).

(** [os.path.dirname(current_file) if current_file else None] *)
Definition working_dir (w : world) : option string :=
  let current_file := ed_filename w in
  if negb (String.eqb current_file "") then Some (ed_dirname w) else None.

(** The [try] block of [do_format] with its handlers. *)
Definition run_prettier (w : world) (cmd : list string) (text : string) (timeout : json)
  : io (option string) :=
  let cwd := working_dir w in
  emit (Spawn cmd text cwd timeout);;
  match run_process w cmd text cwd timeout with
  | Ok (returncode, stdout, stderr) => on_completion returncode stdout stderr
  | Raise TimeoutExpired =>
      emit (Print ("ERROR: Prettier timed out (>" +:+ py_str timeout +:+ "s)"));;
      mret None
  | Raise FileNotFoundError =>
      emit (Print "ERROR: Prettier executable not found");;
      mret None
  | Raise e =>
      emit (PrintExc "ERROR: Prettier execution failed: " e);;
      mret None
  end.

(** [do_format(text, lexer)] *)
Definition do_format (w : world) (text lexer : string) : io (option string) :=
  if String.eqb text "" || String.eqb (strip text) "" then mret (Some text)
  else
    let lexer := if String.eqb lexer "" then ed_lexer w else lexer in
    match LEXER_TO_PARSER !! lexer with
    | Some parser =>
        if String.eqb parser "" then
          emit (Print ("NOTE: Prettier does not support lexer " +:+ dquote +:+ lexer +:+ dquote));;
          mret None
        else
          config ← load_config w;
          found ← find_prettier_executable w config;
          match found with
          | Some prettier_path =>
              if String.eqb prettier_path "" then mret None
              else
                cmd ← build_prettier_command prettier_path parser config;
                emit (Print ("Prettier: Formatting with parser: " +:+ parser));;
                timeout ← checked_timeout config;
                run_prettier w cmd text timeout
          | None => mret None
          end
    | None =>
        emit (Print ("NOTE: Prettier does not support lexer " +:+ dquote +:+ lexer +:+ dquote));;
        mret None
    end.

End Interpreter.

(** ** Notions used in the statements below *)

(** The options whose value [build_prettier_command] puts on the command
    line as it is, without [str()]; the configuration schema gives each of
    them a string value. *)
Definition string_options : list string :=
  ["quoteProps"; "trailingComma"; "arrowParens"; "endOfLine"; "proseWrap";
   "htmlWhitespaceSensitivity"; "embeddedLanguageFormatting"; "objectWrap"].

Definition holds_string (v : option json) : bool :=
  match v with
  | None | Some (JStr _) => true
  | Some _ => false
  end.

(** Every string-valued option that is present holds a string. *)
Definition string_options_ok (options : gmap string json) : bool :=
  forallb (fun k => holds_string (options !! k)) string_options.

(** The text has no character other than whitespace (the empty text
    included). *)
Fixpoint only_whitespace (s : string) : bool :=
  match s with
  | EmptyString => true
  | String c r => is_space c && only_whitespace r
  end.

(** The language name [do_format] looks up: the argument, or the editor's
    lexer when the argument is empty. *)
Definition effective_lexer (w : world) (lexer : string) : string :=
  if String.eqb lexer "" then ed_lexer w else lexer.

(** The string has no whitespace character. *)
Fixpoint no_whitespace (s : string) : bool :=
  match s with
  | EmptyString => true
  | String c r => negb (is_space c) && no_whitespace r
  end.

(** ** A sample machine

    The configuration file exists and reads as [config_file]; no bundled
    or local executable, no package manager answers, Prettier is on the
    search path; the document is unsaved; the child process ends with
    [outcome]. *)
Definition sample_world (config_file : file_read)
    (outcome : result (Z * string * string)) : world := {|
  fmt_config_filename := Some "/settings/cuda_fmt_prettier.json";
  settings_config_path := "/settings/cuda_fmt_prettier.json";
  path_exists := fun _ => true;
  is_file := fun _ => false;
  create_config := fun _ => None;
  read_config := fun _ => config_file;
  IS_WIN := false;
  tools_path := fun name => "/app/tools/Prettier/" +:+ name;
  local_bin_path := fun name => "/work/node_modules/.bin/" +:+ name;
  probe := fun _ => None;
  which_prettier := Some "/usr/bin/prettier";
  ed_lexer := "JavaScript";
  ed_filename := "";
  ed_dirname := "";
  run_process := fun _ _ _ _ => outcome
|}.

(** ** The option table of the command builder

    [build_prettier_command] treats each option in one of four ways; the
    rows below list the options in source order. *)

Inductive option_kind : Type :=
  | AsStr       (* [if key in options: extend([flag, str(options[key])])] *)
  | AsIs        (* [if key in options: extend([flag, options[key]])] *)
  | WhenTrue    (* [if options.get(key, False): append(flag)] *)
  | WhenFalse.  (* [if not options.get(key, True): append(flag)] *)

Definition OPTION_TABLE : list (option_kind * string * string) := [
  (AsStr, "printWidth", "--print-width");
  (AsStr, "tabWidth", "--tab-width");
  (WhenTrue, "useTabs", "--use-tabs");
  (WhenFalse, "semi", "--no-semi");
  (WhenTrue, "singleQuote", "--single-quote");
  (WhenTrue, "jsxSingleQuote", "--jsx-single-quote");
  (AsIs, "quoteProps", "--quote-props");
  (AsIs, "trailingComma", "--trailing-comma");
  (WhenFalse, "bracketSpacing", "--no-bracket-spacing");
  (WhenTrue, "bracketSameLine", "--bracket-same-line");
  (AsIs, "arrowParens", "--arrow-parens");
  (AsIs, "endOfLine", "--end-of-line");
  (AsIs, "proseWrap", "--prose-wrap");
  (AsIs, "htmlWhitespaceSensitivity", "--html-whitespace-sensitivity");
  (WhenTrue, "vueIndentScriptAndStyle", "--vue-indent-script-and-style");
  (AsIs, "embeddedLanguageFormatting", "--embedded-language-formatting");
  (WhenTrue, "singleAttributePerLine", "--single-attribute-per-line");
  (AsIs, "objectWrap", "--object-wrap");
  (WhenTrue, "experimentalTernaries", "--experimental-ternaries");
  (WhenTrue, "insertPragma", "--insert-pragma");
  (WhenTrue, "requirePragma", "--require-pragma")
].

(** The command parts one row contributes for the options dict [d]. *)
Definition option_tokens (repr_other : json → string) (d : gmap string json)
    (row : option_kind * string * string) : list json :=
  let '(kind, key, flag) := row in
  match kind with
  | AsStr =>
      match d !! key with
      | Some v => [JStr flag; JStr (py_str repr_other v)]
      | None => []
      end
  | AsIs =>
      match d !! key with
      | Some v => [JStr flag; v]
      | None => []
      end
  | WhenTrue =>
      if truthy (default (JBool false) (d !! key)) then [JStr flag] else []
  | WhenFalse =>
      if truthy (default (JBool true) (d !! key)) then [] else [JStr flag]
  end.

(** The two range options for the options dict [d]. *)
Definition range_tokens (repr_other : json → string) (d : gmap string json)
  : list string :=
  ["--range-start";
   py_str repr_other (or_default (JInt 0) (default JNull (d !! "rangeStart")));
   "--range-end";
   py_str repr_other (or_default (JStr "Infinity") (default JNull (d !! "rangeEnd")))].

(** ** The lists of the executable discovery *)

Definition bundled_names (w : world) : list string :=
  if IS_WIN w then ["prettier.exe"; "prettier.cmd"] else ["prettier"].

Definition local_prettier (w : world) : string :=
  local_bin_path w ("prettier" +:+ (if IS_WIN w then ".cmd" else "")).

Definition package_managers (w : world) : list string :=
  if IS_WIN w
  then ["npx.cmd prettier"; "yarn.cmd exec prettier";
        "pnpm.cmd exec prettier"; "bunx.cmd prettier"]
  else ["npx prettier"; "yarn exec prettier";
        "pnpm exec prettier"; "bunx prettier"].

(** The probe of one package manager executor succeeds. *)
Definition probe_ok (w : world) (pm_cmd : string) : bool :=
  match probe w (split_ws pm_cmd ++ ["--version"]) with
  | Some 0 => true
  | _ => false
  end.

Definition is_probe (e : event) : bool :=
  match e with
  | Probe _ => true
  | _ => false
  end.

Definition is_spawn (e : event) : bool :=
  match e with
  | Spawn _ _ _ _ => true
  | _ => false
  end.

(** ** The commands of the plugin menu *)

Inductive msg_icon : Type := IconError | IconWarning | IconInfo.

(** What a command does in the editor, besides what the core functions
    print and do. *)
Inductive ui_event : Type :=
  | Core (e : event)
  (* [ct.msg_box(text, ct.MB_OK | icon)] *)
  | MsgBox (text : string) (icon : msg_icon)
  (* [ct.file_open(path)] *)
  | FileOpen (path : string)
  (* [json.dump(prettierrc_config, f, indent=2)] on the path *)
  | WritePrettierrc (path : string) (content : gmap string json).

(** The editor host of the commands: the machine, and the file the
    [create_prettierrc] command writes. *)
Record host : Type := {
  machine : world;
  (* [os.path.join(file_dir, '.prettierrc')] *)
  prettierrc_in : string → string;
  (* writing the file and opening it: [None] when nothing raises *)
  write_prettierrc : string → option exn
}.

(** [Command.config] *)
Definition Command_config (w : world) : list ui_event :=
  match get_config_path w with
  | None => [MsgBox "Cannot determine config path" IconError]
  | Some config_path =>
      (if negb (path_exists w config_path)
       then Core <$> (load_config w).2
       else [])
      ++ [FileOpen config_path]
  end.

(** The options [Command.create_prettierrc] writes: the default options
    without comment keys, with [rangeEnd] as the largest 32-bit integer. *)
Definition prettierrc_config : result (gmap string json) :=
  options ← py_getitem (JDict DEFAULT_CONFIG) "prettier_options";
  prettierrc_config ← _filter_comments options;
  present ← py_contains (JDict prettierrc_config) "rangeEnd";
  Ok (if present : bool
      then <["rangeEnd" := JInt 2147483647]> prettierrc_config
      else prettierrc_config).

(** [Command.create_prettierrc] *)
Definition Command_create_prettierrc (h : host) : result (list ui_event) :=
  let w := machine h in
  let current_file := ed_filename w in
  if String.eqb current_file "" then
    Ok [MsgBox ("Cannot create .prettierrc:" +:+ String nl (String nl
                "The current file has not been saved yet." +:+ String nl
                "Please save the file first or open an existing file to determine its directory."))
               IconWarning]
  else
    let file_dir := ed_dirname w in
    let prettierrc_path := prettierrc_in h file_dir in
    if path_exists w prettierrc_path then Ok [FileOpen prettierrc_path]
    else
      prettierrc_config ← prettierrc_config;
      match write_prettierrc h prettierrc_path with
      | None =>
          Ok [WritePrettierrc prettierrc_path prettierrc_config;
              Core (Print ("Prettier: Created .prettierrc: " +:+ prettierrc_path));
              FileOpen prettierrc_path]
      | Some e =>
          Ok [Core (PrintExc "NOTE: Cannot create .prettierrc: " e)]
      end.

(** ** Notions for the statements about the discovery *)

(** The probe of one package manager executor, as an event. *)
Definition probe_event (pm_cmd : string) : event :=
  Probe (split_ws pm_cmd ++ ["--version"]).

(** The custom path of the configuration can be used: it is a string that
    is not blank and the path exists. *)
Definition custom_usable (w : world) (config : gmap string json) : bool :=
  match default (JStr "") (config !! "prettier_path") with
  | JStr s => negb (String.eqb (strip s) "") && path_exists w (strip s)
  | _ => false
  end.

(** [shutil.which] found something. *)
Definition which_found (w : world) : option string :=
  match which_prettier w with
  | Some path => if String.eqb path "" then None else Some path
  | None => None
  end.

(** ** More sample machines

    As [sample_world], with the regular files [files], the package manager
    executor [executor] answering its probe with 0 (the others with 1),
    and [which] as the search path lookup. *)
Definition sample_world_with (files : list string) (executor which : option string)
    (config_file : file_read) (outcome : result (Z * string * string)) : world := {|
  fmt_config_filename := Some "/settings/cuda_fmt_prettier.json";
  settings_config_path := "/settings/cuda_fmt_prettier.json";
  path_exists := fun _ => true;
  is_file := fun p => existsb (String.eqb p) files;
  create_config := fun _ => None;
  read_config := fun _ => config_file;
  IS_WIN := false;
  tools_path := fun name => "/app/tools/Prettier/" +:+ name;
  local_bin_path := fun name => "/work/node_modules/.bin/" +:+ name;
  probe := fun cmd =>
    match executor with
    | Some c => if bool_decide (cmd = split_ws c ++ ["--version"]) then Some 0 else Some 1
    | None => None
    end;
  which_prettier := which;
  ed_lexer := "JavaScript";
  ed_filename := "";
  ed_dirname := "";
  run_process := fun _ _ _ _ => outcome
|}.


(** ** Notions for the statements about lines and words *)

(** The string has no line feed. *)
Definition no_line_feed (line : string) : bool :=
  negb (existsb (Ascii.eqb nl) (list_ascii_of_string line)).

(** [lines] are the lines of [msg]: pieces without a line feed, at least
    one, that give [msg] back when they are joined by line feeds. *)
Definition lines_of (msg : string) (lines : list string) : Prop :=
  lines ≠ [] ∧
  forallb no_line_feed lines = true ∧
  msg = String.concat (String nl "") lines.

(** [weave s0 [(w1, s1); ...; (wn, sn)]] is the string
    [s0 w1 s1 ... wn sn]: words with the separators around them. *)
Fixpoint weave (s0 : string) (l : list (string * string)) : string :=
  match l with
  | [] => s0
  | (word, sep) :: rest => s0 +:+ word +:+ weave sep rest
  end.

(** The words are not empty and have no whitespace; the separator after
    a word is whitespace only, and not empty when another word follows. *)
Fixpoint separated (l : list (string * string)) : bool :=
  match l with
  | [] => true
  | (word, sep) :: rest =>
      negb (String.eqb word "") && no_whitespace word && only_whitespace sep
      && match rest with [] => true | _ :: _ => negb (String.eqb sep "") end
      && separated rest
  end.

(** What may follow a word: nothing, or a whitespace character. *)
Definition word_end (x : string) : bool :=
  match x with
  | EmptyString => true
  | String c _ => is_space c
  end.

(** The shape of a merged configuration: the user's top-level keys [t]
    (without the options block) and the user's options [o], both without
    comment keys, laid over the defaults. *)
Definition merged_shape (t o : gmap string json) : gmap string json :=
  filter_comment_keys t ∪
  <["prettier_options" := JDict (filter_comment_keys o ∪ DEFAULT_OPTIONS)]>
    (filter_comment_keys DEFAULT_CONFIG).

(** * Properties of the configuration merge *)

Lemma filter_comment_keys_lookup (d : gmap string json) (k : string) :
  filter_comment_keys d !! k = if is_comment_key k then None else d !! k.
Proof.
  unfold filter_comment_keys. rewrite map_lookup_filter.
  destruct (d !! k) as [v|]; simpl.
  - destruct (is_comment_key k) eqn:E; case_guard; simpl; congruence.
  - by destruct (is_comment_key k).
Qed.

Lemma filter_comment_keys_empty : filter_comment_keys ∅ = ∅.
Proof.
  apply map_eq; intros k.
  rewrite filter_comment_keys_lookup, lookup_empty.
  by destruct (is_comment_key k).
Qed.

Lemma default_config_options :
  filter_comment_keys DEFAULT_CONFIG !! "prettier_options" = Some (JDict DEFAULT_OPTIONS).
Proof. vm_compute. reflexivity. Qed.

Lemma merge_user_config_no_block (u : gmap string json) :
  u !! "prettier_options" = None →
  merge_user_config (JDict u) = Ok (merged_shape u ∅).
Proof.
  intros Hu. unfold merge_user_config, merged_shape. simpl.
  rewrite Hu. simpl. unfold dict_update.
  rewrite filter_comment_keys_empty, (left_id_L ∅ (∪)).
  by rewrite (insert_id _ _ _ default_config_options).
Qed.

Lemma merge_user_config_block (u o : gmap string json) :
  u !! "prettier_options" = Some (JDict o) →
  merge_user_config (JDict u) = Ok (merged_shape (delete "prettier_options" u) o).
Proof.
  intros Hu. unfold merge_user_config, merged_shape. simpl.
  rewrite Hu. simpl.
  rewrite default_config_options. simpl.
  reflexivity.
Qed.

Lemma merge_user_config_bad_block (u : gmap string json) (v : json) :
  u !! "prettier_options" = Some v → (∀ o, v ≠ JDict o) →
  merge_user_config (JDict u) = Raise AttributeError.
Proof.
  intros Hu Hv. unfold merge_user_config. simpl. rewrite Hu. simpl.
  destruct v; try reflexivity. by destruct (Hv d).
Qed.

Lemma merge_user_config_not_dict (u : json) :
  (∀ d, u ≠ JDict d) → ∃ e, merge_user_config u = Raise e.
Proof.
  intros Hu. unfold merge_user_config.
  destruct u as [| | | |s|l|d]; simpl; eauto.
  - destruct (contains "prettier_options" s); simpl; eauto.
  - destruct (existsb _ l); simpl; eauto.
  - by destruct (Hu d).
Qed.

Lemma merged_shape_default :
  merged_shape ∅ ∅ = filter_comment_keys DEFAULT_CONFIG.
Proof.
  unfold merged_shape. rewrite filter_comment_keys_empty, !(left_id_L ∅ (∪)).
  apply insert_id, default_config_options.
Qed.

Lemma merged_shape_options (t o : gmap string json) :
  t !! "prettier_options" = None →
  merged_shape t o !! "prettier_options" =
    Some (JDict (filter_comment_keys o ∪ DEFAULT_OPTIONS)).
Proof.
  intros Ht. unfold merged_shape.
  rewrite lookup_union_r, lookup_insert_eq; [done|].
  rewrite filter_comment_keys_lookup. simpl. done.
Qed.

Lemma merged_shape_lookup_ne (t o : gmap string json) (k : string) :
  k ≠ "prettier_options" →
  merged_shape t o !! k =
    if is_comment_key k then None
    else match t !! k with Some v => Some v | None => DEFAULT_CONFIG !! k end.
Proof.
  intros Hk. unfold merged_shape.
  rewrite lookup_union, lookup_insert_ne by done.
  rewrite !filter_comment_keys_lookup.
  destruct (is_comment_key k); [done|].
  by destruct (t !! k), (DEFAULT_CONFIG !! k).
Qed.

Lemma merge_user_config_shape (u : json) (c : gmap string json) :
  merge_user_config u = Ok c →
  ∃ t o, t !! "prettier_options" = None ∧ c = merged_shape t o.
Proof.
  intros Hm. destruct u as [| | | |s|l|d];
    try (match type of Hm with merge_user_config ?u = _ =>
           destruct (merge_user_config_not_dict u) as [e He]; [discriminate|congruence]
         end).
  destruct (d !! "prettier_options") as [v|] eqn:Hd.
  - destruct v as [| | | | | |o];
      try (rewrite (merge_user_config_bad_block d _ Hd) in Hm by congruence; congruence).
    rewrite (merge_user_config_block d o Hd) in Hm. injection Hm as <-.
    eexists _, _. split; [|done]. apply lookup_delete_eq.
  - rewrite (merge_user_config_no_block d Hd) in Hm. injection Hm as <-.
    eauto.
Qed.

Lemma options_overlay_idem (o : gmap string json) :
  filter_comment_keys (filter_comment_keys o ∪ DEFAULT_OPTIONS) ∪ DEFAULT_OPTIONS
  = filter_comment_keys o ∪ DEFAULT_OPTIONS.
Proof.
  apply map_eq; intros k.
  rewrite !lookup_union, !filter_comment_keys_lookup, !lookup_union,
    !filter_comment_keys_lookup.
  destruct (is_comment_key k); [done|].
  destruct (o !! k), (DEFAULT_OPTIONS !! k); done.
Qed.

Lemma merge_user_config_of_shape (t o : gmap string json) :
  t !! "prettier_options" = None →
  merge_user_config (JDict (merged_shape t o)) = Ok (merged_shape t o).
Proof.
  intros Ht.
  rewrite (merge_user_config_block _ _ (merged_shape_options t o Ht)).
  f_equal. unfold merged_shape at 1. rewrite options_overlay_idem.
  apply map_eq; intros k.
  destruct (decide (k = "prettier_options")) as [->|Hk].
  - rewrite merged_shape_options by done.
    rewrite lookup_union_r, lookup_insert_eq; [done|].
    by rewrite filter_comment_keys_lookup, lookup_delete_eq.
  - rewrite lookup_union, lookup_insert_ne, !filter_comment_keys_lookup,
      lookup_delete_ne, merged_shape_lookup_ne by done.
    destruct (is_comment_key k); [done|].
    by destruct (t !! k), (DEFAULT_CONFIG !! k).
Qed.

(** * Properties of the command builder *)

Lemma result_bind_Ok {A B} (a : A) (f : A → result B) : (Ok a ≫= f) = f a.
Proof. reflexivity. Qed.

Lemma as_strings_strs (l : list string) : as_strings (JStr <$> l) = Ok l.
Proof.
  induction l as [|s l IH]; [done|].
  csimpl. rewrite IH. reflexivity.
Qed.

Lemma as_strings_app_inv (l1 l2 : list json) (c : list string) :
  as_strings (l1 ++ l2) = Ok c →
  ∃ c1 c2, as_strings l1 = Ok c1 ∧ as_strings l2 = Ok c2 ∧ c = c1 ++ c2.
Proof.
  revert c. induction l1 as [|v l1 IH]; intros c; simpl.
  - intros H. by exists [], c.
  - destruct v; try discriminate.
    destruct (as_strings (l1 ++ l2)) as [c'|] eqn:E; [|discriminate].
    intros [= <-]. destruct (IH c' eq_refl) as (c1 & c2 & -> & H2 & ->).
    by exists (s :: c1), c2.
Qed.

Section CommandBuilder.

Variable repr_other : json → string.
Variable d : gmap string json.

(** On a dict, each step of the builder appends tokens that do not depend
    on the command so far. *)
Lemma extend_str_dict (key flag : string) :
  ∃ toks strs, toks = JStr <$> strs ∧
    ∀ cmd, extend_str repr_other (JDict d) key flag cmd = Ok (cmd ++ toks).
Proof.
  unfold extend_str. simpl. destruct (d !! key) as [v|] eqn:E.
  - exists [JStr flag; JStr (py_str repr_other v)], [flag; py_str repr_other v].
    split; [done|]. intros cmd. by rewrite bool_decide_eq_true_2 by eauto.
  - exists [], []. split; [done|]. intros cmd.
    rewrite bool_decide_eq_false_2 by (by intros [? ?]).
    simpl. by rewrite app_nil_r.
Qed.

Lemma extend_raw_dict (key flag : string) :
  ∃ toks, (holds_string (d !! key) = true → ∃ strs, toks = JStr <$> strs) ∧
    ∀ cmd, extend_raw (JDict d) key flag cmd = Ok (cmd ++ toks).
Proof.
  unfold extend_raw. simpl. destruct (d !! key) as [v|] eqn:E.
  - exists [JStr flag; v]. split.
    + destruct v; simpl; try discriminate. intros _. by exists [flag; s].
    + intros cmd. by rewrite bool_decide_eq_true_2 by eauto.
  - exists []. split; [by exists []|]. intros cmd.
    rewrite bool_decide_eq_false_2 by (by intros [? ?]).
    simpl. by rewrite app_nil_r.
Qed.

Lemma append_if_dict (key flag : string) :
  ∃ toks strs, toks = JStr <$> strs ∧
    ∀ cmd, append_if (JDict d) key flag cmd = Ok (cmd ++ toks).
Proof.
  unfold append_if. simpl. destruct (truthy _).
  - by exists [JStr flag], [flag].
  - exists [], []. split; [done|]. intros cmd. by rewrite app_nil_r.
Qed.

Lemma append_unless_dict (key flag : string) :
  ∃ toks strs, toks = JStr <$> strs ∧
    ∀ cmd, append_unless (JDict d) key flag cmd = Ok (cmd ++ toks).
Proof.
  unfold append_unless. simpl. destruct (truthy _).
  - exists [], []. split; [done|]. intros cmd. by rewrite app_nil_r.
  - by exists [JStr flag], [flag].
Qed.

Lemma string_options_ok_elim (key : string) :
  string_options_ok d = true → In key string_options →
  holds_string (d !! key) = true.
Proof.
  unfold string_options_ok. rewrite forallb_forall.
  intros H Hk. by apply H.
Qed.

Lemma inline_options_dict :
  ∃ toks, (string_options_ok d = true → ∃ strs, toks = JStr <$> strs) ∧
    ∀ cmd, inline_options repr_other (JDict d) cmd = Ok (cmd ++ toks).
Proof.
  destruct (extend_str_dict "printWidth" "--print-width") as (t1 & s1 & -> & E1).
  destruct (extend_str_dict "tabWidth" "--tab-width") as (t2 & s2 & -> & E2).
  destruct (append_if_dict "useTabs" "--use-tabs") as (t3 & s3 & -> & E3).
  destruct (append_unless_dict "semi" "--no-semi") as (t4 & s4 & -> & E4).
  destruct (append_if_dict "singleQuote" "--single-quote") as (t5 & s5 & -> & E5).
  destruct (append_if_dict "jsxSingleQuote" "--jsx-single-quote") as (t6 & s6 & -> & E6).
  destruct (extend_raw_dict "quoteProps" "--quote-props") as (t7 & S7 & E7).
  destruct (extend_raw_dict "trailingComma" "--trailing-comma") as (t8 & S8 & E8).
  destruct (append_unless_dict "bracketSpacing" "--no-bracket-spacing") as (t9 & s9 & -> & E9).
  destruct (append_if_dict "bracketSameLine" "--bracket-same-line") as (t10 & s10 & -> & E10).
  destruct (extend_raw_dict "arrowParens" "--arrow-parens") as (t11 & S11 & E11).
  destruct (extend_raw_dict "endOfLine" "--end-of-line") as (t12 & S12 & E12).
  destruct (extend_raw_dict "proseWrap" "--prose-wrap") as (t13 & S13 & E13).
  destruct (extend_raw_dict "htmlWhitespaceSensitivity" "--html-whitespace-sensitivity")
    as (t14 & S14 & E14).
  destruct (append_if_dict "vueIndentScriptAndStyle" "--vue-indent-script-and-style")
    as (t15 & s15 & -> & E15).
  destruct (extend_raw_dict "embeddedLanguageFormatting" "--embedded-language-formatting")
    as (t16 & S16 & E16).
  destruct (append_if_dict "singleAttributePerLine" "--single-attribute-per-line")
    as (t17 & s17 & -> & E17).
  destruct (extend_raw_dict "objectWrap" "--object-wrap") as (t18 & S18 & E18).
  destruct (append_if_dict "experimentalTernaries" "--experimental-ternaries")
    as (t19 & s19 & -> & E19).
  destruct (append_if_dict "insertPragma" "--insert-pragma") as (t20 & s20 & -> & E20).
  destruct (append_if_dict "requirePragma" "--require-pragma") as (t21 & s21 & -> & E21).
  eexists. split; cycle 1.
  - intros cmd. unfold inline_options.
    rewrite E1, result_bind_Ok, E2, result_bind_Ok, E3, result_bind_Ok,
      E4, result_bind_Ok, E5, result_bind_Ok, E6, result_bind_Ok,
      E7, result_bind_Ok, E8, result_bind_Ok, E9, result_bind_Ok,
      E10, result_bind_Ok, E11, result_bind_Ok, E12, result_bind_Ok,
      E13, result_bind_Ok, E14, result_bind_Ok, E15, result_bind_Ok,
      E16, result_bind_Ok, E17, result_bind_Ok, E18, result_bind_Ok,
      E19, result_bind_Ok, E20, result_bind_Ok, E21.
    rewrite <- !(assoc_L (++)). reflexivity.
  - intros Hok.
    destruct S7 as [s7 ->]; [apply string_options_ok_elim; [done|simpl; tauto]|].
    destruct S8 as [s8 ->]; [apply string_options_ok_elim; [done|simpl; tauto]|].
    destruct S11 as [s11 ->]; [apply string_options_ok_elim; [done|simpl; tauto]|].
    destruct S12 as [s12 ->]; [apply string_options_ok_elim; [done|simpl; tauto]|].
    destruct S13 as [s13 ->]; [apply string_options_ok_elim; [done|simpl; tauto]|].
    destruct S14 as [s14 ->]; [apply string_options_ok_elim; [done|simpl; tauto]|].
    destruct S16 as [s16 ->]; [apply string_options_ok_elim; [done|simpl; tauto]|].
    destruct S18 as [s18 ->]; [apply string_options_ok_elim; [done|simpl; tauto]|].
    rewrite <- !fmap_app. eauto.
Qed.

End CommandBuilder.

Lemma io_bind_lift_Ok {A B} (a : A) (f : A → io B) : (lift (Ok a) ≫= f) = f a.
Proof.
  unfold lift, mbind, io_mbind, io_bind. by destruct (f a).
Qed.

Lemma print_and_return_outcome (cmd_parts : list json) :
  (print_and_return cmd_parts).1 = as_strings cmd_parts.
Proof.
  unfold print_and_return. by destruct (as_strings cmd_parts).
Qed.

Lemma print_and_return_strs (strs : list string) :
  print_and_return (JStr <$> strs)
  = (Ok strs, [Print ("Prettier: Command: " +:+ join " " strs)]).
Proof.
  unfold print_and_return. by rewrite as_strings_strs.
Qed.

Lemma range_options_dict (repr_other : json → string) (d : gmap string json)
    (cmd : list json) :
  range_options repr_other (JDict d) cmd
  = Ok (cmd ++ (JStr <$>
      ["--range-start";
       py_str repr_other (or_default (JInt 0) (default JNull (d !! "rangeStart")));
       "--range-end";
       py_str repr_other (or_default (JStr "Infinity") (default JNull (d !! "rangeEnd")))])).
Proof.
  unfold range_options. simpl. by rewrite <- (assoc_L (++)).
Qed.

(** The builder on a configuration that asks for inline options and whose
    options block is the dict [options]: the command parts before the
    [' '.join]. *)
Lemma build_prettier_command_inline (repr_other : json → string)
    (prettier_path parser : string) (config options : gmap string json) :
  truthy (default (JBool true) (config !! "use_prettier_config_file")) = false →
  default (JDict ∅) (config !! "prettier_options") = JDict options →
  ∃ toks, (string_options_ok options = true → ∃ strs, toks = JStr <$> strs) ∧
    build_prettier_command repr_other prettier_path parser config
    = print_and_return (toks ++ (JStr <$>
        ["--range-start";
         py_str repr_other (or_default (JInt 0) (default JNull (options !! "rangeStart")));
         "--range-end";
         py_str repr_other
           (or_default (JStr "Infinity") (default JNull (options !! "rangeEnd")))])).
Proof.
  intros Hflag Hopts.
  destruct (inline_options_dict repr_other options) as (toks & Hstr & Htoks).
  exists (((JStr <$> seed_tokens prettier_path) ++ [JStr "--parser"; JStr parser])
          ++ [JStr "--no-color"] ++ toks).
  split.
  - intros Hok. destruct (Hstr Hok) as [strs ->].
    exists (seed_tokens prettier_path ++ ["--parser"; parser] ++ ["--no-color"] ++ strs).
    by rewrite !fmap_app, <- !(assoc_L (++)).
  - unfold build_prettier_command.
    rewrite Hflag, Hopts, Htoks, io_bind_lift_Ok, range_options_dict, io_bind_lift_Ok.
    by rewrite <- !(assoc_L (++)).
Qed.

(** An options block that is not a dict makes the builder raise. *)
Lemma inline_options_not_dict (repr_other : json → string) (options : json)
    (cmd : list json) :
  (∀ d, options ≠ JDict d) →
  ∃ e, inline_options repr_other options cmd = Raise e.
Proof.
  intros Hd. unfold inline_options, extend_str.
  destruct options as [| | | |s|l|d]; simpl; eauto.
  - destruct (contains "printWidth" s); simpl; eauto.
    destruct (contains "tabWidth" s); simpl; eauto.
  - destruct (existsb (fun v => is_str v "printWidth") l); simpl; eauto.
    destruct (existsb (fun v => is_str v "tabWidth") l); simpl; eauto.
  - by destruct (Hd d).
Qed.

(** The range options on a dict options block: what every returned command
    ends with, and when a command is returned. *)
Lemma build_prettier_command_range_dict
    (repr_other : json → string) (prettier_path parser : string)
    (config options : gmap string json) :
  truthy (default (JBool true) (config !! "use_prettier_config_file")) = false →
  default (JDict ∅) (config !! "prettier_options") = JDict options →
  ∃ S E : string,
    (options !! "rangeStart" = None ∨ options !! "rangeStart" = Some JNull → S = "0") ∧
    (∀ v, options !! "rangeStart" = Some v → v ≠ JNull → S = py_str repr_other v) ∧
    (options !! "rangeEnd" = None ∨ options !! "rangeEnd" = Some JNull → E = "Infinity") ∧
    (∀ v, options !! "rangeEnd" = Some v → v ≠ JNull → E = py_str repr_other v) ∧
    (∀ cmd, (build_prettier_command repr_other prettier_path parser config).1 = Ok cmd →
       ∃ pre, cmd = pre ++ ["--range-start"; S; "--range-end"; E]) ∧
    (string_options_ok options = true →
       ∃ pre, (build_prettier_command repr_other prettier_path parser config).1
              = Ok (pre ++ ["--range-start"; S; "--range-end"; E])).
Proof.
  intros Hflag Hopts.
  destruct (build_prettier_command_inline repr_other prettier_path parser
              config options Hflag Hopts) as (toks & Hstr & ->).
  exists (py_str repr_other (or_default (JInt 0) (default JNull (options !! "rangeStart")))),
    (py_str repr_other (or_default (JStr "Infinity") (default JNull (options !! "rangeEnd")))).
  split; [by intros [-> | ->]|].
  split; [intros v -> Hv; by destruct v|].
  split; [by intros [-> | ->]|].
  split; [intros v -> Hv; by destruct v|].
  split.
  - intros cmd. rewrite print_and_return_outcome. intros Hcmd.
    apply as_strings_app_inv in Hcmd as (c1 & c2 & _ & H2 & ->).
    rewrite as_strings_strs in H2. injection H2 as <-. by exists c1.
  - intros Hok. destruct (Hstr Hok) as [strs ->].
    rewrite <- fmap_app, print_and_return_strs. by exists strs.
Qed.

Lemma build_prettier_command_bad_options
    (repr_other : json → string) (prettier_path parser : string)
    (config : gmap string json) :
  truthy (default (JBool true) (config !! "use_prettier_config_file")) = false →
  (∀ d, default (JDict ∅) (config !! "prettier_options") ≠ JDict d) →
  ∃ e, (build_prettier_command repr_other prettier_path parser config).1 = Raise e.
Proof.
  intros Hflag Hbad. unfold build_prettier_command. rewrite Hflag.
  destruct (inline_options_not_dict repr_other _
              (((JStr <$> seed_tokens prettier_path) ++ [JStr "--parser"; JStr parser])
               ++ [JStr "--no-color"]) Hbad) as [e ->].
  by exists e.
Qed.

(** C1. With [use_prettier_config_file] false (or any falsy value), every
    command that [build_prettier_command] returns ends with the four
    tokens [--range-start S --range-end E], whatever other option keys are
    present: [S] is [str()] of the configured [rangeStart], or ["0"] when
    the key is absent (or null); [E] is [str()] of the configured
    [rangeEnd], or ["Infinity"] when the key is absent (or null). A command
    is returned whenever the options block is a dict (or absent) whose
    string-valued options hold strings; otherwise the [' '.join] of the
    log line, or the access to the options, raises. *)
Theorem build_prettier_command_range_always_explicit
    (repr_other : json → string) (prettier_path parser : string)
    (config : gmap string json) :
  truthy (default (JBool true) (config !! "use_prettier_config_file")) = false →
  (∀ cmd, (build_prettier_command repr_other prettier_path parser config).1 = Ok cmd →
     ∃ (options : gmap string json) (pre : list string) (S E : string),
       default (JDict ∅) (config !! "prettier_options") = JDict options ∧
       cmd = pre ++ ["--range-start"; S; "--range-end"; E] ∧
       (options !! "rangeStart" = None ∨ options !! "rangeStart" = Some JNull → S = "0") ∧
       (∀ v, options !! "rangeStart" = Some v → v ≠ JNull → S = py_str repr_other v) ∧
       (options !! "rangeEnd" = None ∨ options !! "rangeEnd" = Some JNull →
          E = "Infinity") ∧
       (∀ v, options !! "rangeEnd" = Some v → v ≠ JNull → E = py_str repr_other v)) ∧
  (∀ options,
     default (JDict ∅) (config !! "prettier_options") = JDict options →
     string_options_ok options = true →
     ∃ cmd, (build_prettier_command repr_other prettier_path parser config).1 = Ok cmd).
Proof.
  intros Hflag. split.
  - intros cmd Hcmd.
    destruct (default (JDict ∅) (config !! "prettier_options")) as [| | | | | |options] eqn:Hopts;
      try (destruct (build_prettier_command_bad_options repr_other prettier_path
                       parser config Hflag) as [e He];
           [rewrite Hopts; discriminate | congruence]).
    destruct (build_prettier_command_range_dict repr_other prettier_path parser
                config options Hflag Hopts)
      as (S & E & HS0 & HS & HE0 & HE & Hend & _).
    destruct (Hend cmd Hcmd) as [pre ->].
    by exists options, pre, S, E.
  - intros options Hopts Hok.
    destruct (build_prettier_command_range_dict repr_other prettier_path parser
                config options Hflag Hopts)
      as (S & E & _ & _ & _ & _ & _ & Htotal).
    destruct (Htotal Hok) as [pre Hpre]. eauto.
Qed.

(** C2. With [use_prettier_config_file] true (or absent, or any truthy
    value) [build_prettier_command] returns exactly the seed tokens of the
    executable followed by [--parser P --no-color], logs that command and
    adds no option flag, whatever the [prettier_options] block holds. *)
Theorem build_prettier_command_project_config
    (repr_other : json → string) (prettier_path parser : string)
    (config : gmap string json) :
  truthy (default (JBool true) (config !! "use_prettier_config_file")) = true →
  build_prettier_command repr_other prettier_path parser config
  = (Ok (seed_tokens prettier_path ++ ["--parser"; parser; "--no-color"]),
     [Print ("Prettier: Command: "
             +:+ join " " (seed_tokens prettier_path ++ ["--parser"; parser; "--no-color"]))]).
Proof.
  intros Hflag. unfold build_prettier_command. rewrite Hflag.
  rewrite <- (assoc_L (++)).
  change ((JStr <$> seed_tokens prettier_path) ++ [JStr "--parser"; JStr parser] ++ [JStr "--no-color"])
    with ((JStr <$> seed_tokens prettier_path) ++ (JStr <$> ["--parser"; parser; "--no-color"])).
  by rewrite <- fmap_app, print_and_return_strs.
Qed.

(** * Properties of the string helpers *)

Lemma rstrip_empty (s : string) : rstrip s = "" ↔ only_whitespace s = true.
Proof.
  induction s as [|c r IH]; simpl; [done|].
  destruct (rstrip r) eqn:E, (is_space c); simpl; split; try done.
  - intros _. by apply IH.
  - intros H. apply IH in H. discriminate.
Qed.

Lemma only_whitespace_lstrip (s : string) :
  only_whitespace (lstrip s) = only_whitespace s.
Proof.
  induction s as [|c r IH]; simpl; [done|].
  destruct (is_space c) eqn:E; simpl; [done|]. by rewrite E.
Qed.

Lemma strip_empty (s : string) : strip s = "" ↔ only_whitespace s = true.
Proof.
  unfold strip. by rewrite rstrip_empty, only_whitespace_lstrip.
Qed.

Lemma blank_guard (text : string) :
  String.eqb text "" || String.eqb (strip text) "" = only_whitespace text.
Proof.
  destruct (only_whitespace text) eqn:E.
  - apply strip_empty in E. rewrite E. simpl. by rewrite orb_true_r.
  - apply orb_false_intro.
    + apply String.eqb_neq. by intros ->.
    + apply String.eqb_neq. intros H. apply strip_empty in H. congruence.
Qed.

(** * Properties of the format entry point *)

(** C10. A text that is empty or has only whitespace characters is
    returned unchanged, and the call does nothing else: no print, no
    configuration file access, no probe and no subprocess. *)
Theorem do_format_blank_text_unchanged
    (repr_other : json → string) (w : world) (text lexer : string) :
  only_whitespace text = true →
  do_format repr_other w text lexer = (Ok (Some text), []).
Proof.
  intros Hblank. unfold do_format. by rewrite blank_guard, Hblank.
Qed.

Lemma dict_of_lookup_Some {A} (items : list (string * A)) (k : string) (v : A) :
  dict_of items !! k = Some v → (k, v) ∈ items.
Proof.
  assert (Hgen : ∀ (l : list (string * A)) (m : gmap string A),
    fold_left (fun m kv => <[kv.1 := kv.2]> m) l m !! k = Some v →
    (k, v) ∈ l ∨ m !! k = Some v).
  { induction l as [|[k' v'] l IH]; intros m; simpl; [by right|].
    intros H. apply IH in H as [H|H]; [left; by right|].
    rewrite lookup_insert in H. destruct (decide (k' = k)) as [->|].
    - injection H as ->. left. by left.
    - by right. }
  intros H. apply Hgen in H as [H|H]; [done|]. by rewrite lookup_empty in H.
Qed.

Lemma LEXER_TO_PARSER_documented :
  Forall (fun item => LEXER_TO_PARSER !! item.1 = Some item.2
                      ∧ String.eqb item.2 "" = false)
         LEXER_TO_PARSER_items.
Proof.
  unfold LEXER_TO_PARSER_items.
  repeat (constructor; [split; vm_compute; reflexivity|]).
  constructor.
Qed.

Lemma LEXER_TO_PARSER_nonempty (name parser : string) :
  LEXER_TO_PARSER !! name = Some parser → String.eqb parser "" = false.
Proof.
  intros H. apply dict_of_lookup_Some in H.
  pose proof LEXER_TO_PARSER_documented as Hdoc.
  rewrite Forall_forall in Hdoc. by destruct (Hdoc _ H) as [_ ?].
Qed.

(** C3 (amended). The lexer table holds exactly the 22 documented entries:
    a name is looked up to a parser if and only if the pair is in the list
    below, for instance ["JavaScript"] to ["babel"], and no parser is the
    empty string (so the lookup guard lets every entry through). For a
    text that is not blank, a language name that the table does not have
    makes [do_format] return [None] after the one "does not support lexer"
    note: no configuration is loaded, no executable is looked for and no
    process is started with some default parser. A blank text is returned
    as it is before the lookup, whatever the language name. *)
Theorem lexer_lookup_explicit
    (repr_other : json → string) (w : world) (text lexer : string) :
  (∀ name parser,
     LEXER_TO_PARSER !! name = Some parser ↔
     In (name, parser)
        [("JavaScript", "babel"); ("JavaScript Babel", "babel-flow");
         ("TypeScript", "typescript"); ("CSS", "css"); ("SCSS", "scss");
         ("LESS", "less"); ("HTML", "html"); ("XML", "html");
         ("Markdown", "markdown"); ("MDX", "mdx"); ("JSON", "json");
         ("YAML", "yaml"); ("GraphQL", "graphql"); ("HTML Handlebars", "html");
         ("HTML Laravel Blade", "html"); ("HTML Django DTL", "html");
         ("Jinja2", "html"); ("Twig", "html"); ("Svelte", "html");
         ("Vue", "vue"); ("Pug", "pug"); ("Jade", "pug")]) ∧
  (∀ name parser, LEXER_TO_PARSER !! name = Some parser → parser ≠ "") ∧
  (only_whitespace text = false →
   LEXER_TO_PARSER !! effective_lexer w lexer = None →
   do_format repr_other w text lexer
   = (Ok None,
      [Print ("NOTE: Prettier does not support lexer "
              +:+ dquote +:+ effective_lexer w lexer +:+ dquote)])) ∧
  (only_whitespace text = true →
   do_format repr_other w text lexer = (Ok (Some text), [])).
Proof.
  split; [|split; [|split]].
  - intros name parser. split.
    + intros H. apply dict_of_lookup_Some, list_elem_of_In in H. exact H.
    + intros H. cbn [In] in H.
      repeat (destruct H as [H|H];
              [injection H as <- <-; vm_compute; reflexivity|]).
      destruct H.
  - intros name parser H. apply LEXER_TO_PARSER_nonempty in H.
    by apply String.eqb_neq.
  - intros Htext Hnone. unfold do_format.
    rewrite blank_guard, Htext. fold (effective_lexer w lexer).
    by rewrite Hnone.
  - intros Htext. unfold do_format. by rewrite blank_guard, Htext.
Qed.

(** C3 as worded fails on a blank text: the guard at the top of
    [do_format] returns such a text before the table is consulted, so a
    language name that the table does not have gives the text back, not
    [None]. *)
Lemma lexer_lookup_explicit_counterexample :
  LEXER_TO_PARSER !! "PlainText" = None ∧
  do_format (fun _ => "") (sample_world DecodeError (Ok (0, "", "")))
    "  " "PlainText"
  = (Ok (Some "  "), []).
Proof. split; vm_compute; reflexivity. Qed.

(** ** The invoker *)

Lemma prefix_rstrip (sub s : string) :
  no_whitespace sub = true →
  String.prefix sub (rstrip s) = String.prefix sub s.
Proof.
  revert sub. induction s as [|c r IH]; intros sub Hsub; [done|].
  destruct sub as [|a sub']; [by destruct (rstrip (String c r))|].
  simpl in Hsub. apply andb_prop in Hsub as [Ha Hsub'].
  specialize (IH sub' Hsub').
  simpl. destruct (rstrip r) as [|c' r'] eqn:E.
  - destruct (is_space c) eqn:Ec.
    + destruct (ascii_dec a c) as [->|]; [|done].
      by rewrite Ec in Ha.
    + simpl. destruct (ascii_dec a c); [|done]. by rewrite <- IH.
  - simpl. destruct (ascii_dec a c); [|done]. by rewrite <- IH.
Qed.

Lemma contains_rstrip (sub s : string) :
  no_whitespace sub = true → sub ≠ "" →
  contains sub (rstrip s) = contains sub s.
Proof.
  intros Hsub Hne. induction s as [|c r IH]; [done|].
  change (contains sub (String c r))
    with (String.prefix sub (String c r) || contains sub r).
  rewrite <- IH, <- (prefix_rstrip sub (String c r)) by done.
  simpl. destruct (rstrip r) as [|c' r'] eqn:E.
  - destruct (is_space c).
    + destruct sub; [done|]. reflexivity.
    + simpl. destruct sub as [|a sub']; [done|]. simpl.
      by rewrite !orb_false_r.
  - reflexivity.
Qed.

Lemma contains_lstrip (sub s : string) :
  no_whitespace sub = true → sub ≠ "" →
  contains sub (lstrip s) = contains sub s.
Proof.
  intros Hsub Hne. induction s as [|c r IH]; [done|].
  simpl lstrip. destruct (is_space c) eqn:Ec; [|done].
  rewrite IH.
  change (contains sub (String c r))
    with (String.prefix sub (String c r) || contains sub r).
  destruct sub as [|a sub']; [done|].
  simpl in Hsub. apply andb_prop in Hsub as [Ha _].
  simpl. destruct (ascii_dec a c) as [->|]; [|done].
  by rewrite Ec in Ha.
Qed.

Lemma contains_strip (sub s : string) :
  no_whitespace sub = true → sub ≠ "" →
  contains sub (strip s) = contains sub s.
Proof.
  intros Hsub Hne. unfold strip.
  by rewrite contains_rstrip, contains_lstrip.
Qed.

Lemma error_marker_strip (stderr : string) :
  contains "SyntaxError" (strip stderr) || contains "ParseError" (strip stderr)
  = contains "SyntaxError" stderr || contains "ParseError" stderr.
Proof. by rewrite !contains_strip. Qed.

(** ** [str.split('\n')] against the lines of a message *)

Lemma split_on_not_nil (sep : ascii) (s : string) : split_on sep s ≠ [].
Proof.
  destruct s as [|c r]; [done|]. cbn [split_on].
  destruct (Ascii.eqb c sep); [done|]. by destruct (split_on sep r).
Qed.

Lemma concat_cons (sep x y : string) (l : list string) :
  String.concat sep (x :: y :: l) = x +:+ sep +:+ String.concat sep (y :: l).
Proof. reflexivity. Qed.

Lemma concat_String (sep : string) (c : ascii) (h : string) (t : list string) :
  String.concat sep (String c h :: t) = String c (String.concat sep (h :: t)).
Proof. by destruct t. Qed.

(** Joining the pieces gives the string back. *)
Lemma split_on_concat (sep : ascii) (s : string) :
  String.concat (String sep "") (split_on sep s) = s.
Proof.
  induction s as [|c r IH]; [done|]. cbn [split_on].
  destruct (Ascii.eqb_spec c sep) as [->|Hc].
  - pose proof (split_on_not_nil sep r) as Hne.
    destruct (split_on sep r) as [|h t]; [done|].
    rewrite concat_cons, IH. reflexivity.
  - pose proof (split_on_not_nil sep r) as Hne.
    destruct (split_on sep r) as [|h t]; [done|].
    by rewrite concat_String, IH.
Qed.

Lemma no_line_feed_String (c : ascii) (r : string) :
  no_line_feed (String c r) = negb (Ascii.eqb nl c) && no_line_feed r.
Proof.
  unfold no_line_feed. cbn [list_ascii_of_string existsb].
  by rewrite negb_orb.
Qed.

(** No piece has a line feed. *)
Lemma split_on_no_line_feed (s : string) :
  forallb no_line_feed (split_on nl s) = true.
Proof.
  induction s as [|c r IH]; [done|]. cbn [split_on].
  destruct (Ascii.eqb_spec c nl) as [->|Hc]; [done|].
  pose proof (split_on_not_nil nl r) as Hne.
  destruct (split_on nl r) as [|h t]; [done|].
  cbn [forallb] in IH |- *. rewrite no_line_feed_String.
  apply andb_prop in IH as [Hh Ht]. rewrite Hh, Ht.
  destruct (Ascii.eqb_spec nl c) as [<-|]; done.
Qed.

Lemma split_on_line (x : string) :
  no_line_feed x = true → split_on nl x = [x].
Proof.
  induction x as [|c r IH]; [done|].
  rewrite no_line_feed_String. intros [Hc Hr]%andb_prop.
  apply negb_true_iff in Hc. rewrite Ascii.eqb_sym in Hc.
  cbn [split_on]. by rewrite Hc, IH.
Qed.

Lemma split_on_line_feed (x y : string) :
  no_line_feed x = true →
  split_on nl (x +:+ String nl y) = x :: split_on nl y.
Proof.
  induction x as [|c r IH].
  - intros _. change ("" +:+ String nl y) with (String nl y).
    cbn [split_on]. by rewrite Ascii.eqb_refl.
  - rewrite no_line_feed_String. intros [Hc Hr]%andb_prop.
    apply negb_true_iff in Hc. rewrite Ascii.eqb_sym in Hc.
    change (String c r +:+ String nl y) with (String c (r +:+ String nl y)).
    cbn [split_on]. by rewrite Hc, IH.
Qed.

(** The pieces of joined lines are the lines. *)
Lemma split_on_of_concat (lines : list string) :
  lines ≠ [] → forallb no_line_feed lines = true →
  split_on nl (String.concat (String nl "") lines) = lines.
Proof.
  induction lines as [|x l IH]; [done|]. intros _.
  cbn [forallb]. intros [Hx Hl]%andb_prop.
  destruct l as [|y l'].
  - by apply split_on_line.
  - rewrite concat_cons.
    change (String nl "" +:+ String.concat (String nl "") (y :: l'))
      with (String nl (String.concat (String nl "") (y :: l'))).
    rewrite split_on_line_feed by done. by rewrite IH.
Qed.

(** The lines of a message are what [split('\n')] returns, and nothing
    else is. *)
Lemma lines_of_split_on (msg : string) (lines : list string) :
  lines_of msg lines ↔ lines = split_on nl msg.
Proof.
  split.
  - intros (Hne & Hl & ->). by rewrite split_on_of_concat.
  - intros ->. split; [apply split_on_not_nil|].
    split; [apply split_on_no_line_feed|]. by rewrite split_on_concat.
Qed.

(** C8. When the process completes with a non-zero exit status the invoker
    returns [None] (no formatted text) after printing one diagnostic. The
    message is the trimmed standard error, or ["Unknown error"] when
    standard error is empty. If standard error contains [SyntaxError] or
    [ParseError] the diagnostic shows the first 3 lines of the message,
    otherwise the whole message. The lines of the message are stated on
    their own: pieces without a line feed that give the message when
    joined by line feeds, and there is one such list only. *)
Theorem run_prettier_process_failure
    (repr_other : json → string) (w : world) (cmd : list string) (text : string)
    (timeout : json) (returncode : Z) (stdout stderr : string) :
  run_process w cmd text (working_dir w) timeout = Ok (returncode, stdout, stderr) →
  returncode ≠ 0 →
  ∃ error_msg lines diagnostic,
    run_prettier repr_other w cmd text timeout
    = (Ok None, [Spawn cmd text (working_dir w) timeout; Print diagnostic]) ∧
    (stderr = "" → error_msg = "Unknown error") ∧
    (stderr ≠ "" → error_msg = strip stderr) ∧
    lines_of error_msg lines ∧
    (∀ lines', lines_of error_msg lines' → lines' = lines) ∧
    (contains "SyntaxError" stderr || contains "ParseError" stderr = true →
     diagnostic = "ERROR: Prettier syntax error:" +:+ String nl "  "
                  +:+ String.concat (String nl "  ") (take 3 lines)) ∧
    (contains "SyntaxError" stderr || contains "ParseError" stderr = false →
     diagnostic = "ERROR: Prettier failed: " +:+ error_msg).
Proof.
  intros Hrun Hrc. unfold run_prettier. rewrite Hrun.
  unfold on_completion. apply Z.eqb_neq in Hrc. rewrite Hrc. simpl negb.
  destruct (String.eqb_spec stderr "") as [->|Hne]; simpl negb.
  - exists "Unknown error", ["Unknown error"], "ERROR: Prettier failed: Unknown error".
    split; [done|]. split; [done|]. split; [done|].
    split; [by apply lines_of_split_on|].
    split; [by intros l ->%lines_of_split_on|]. done.
  - exists (strip stderr), (split_on nl (strip stderr)). rewrite error_marker_strip.
    destruct (contains "SyntaxError" stderr || contains "ParseError" stderr);
      eexists; (split; [reflexivity|]); (split; [done|]); (split; [done|]);
      (split; [by apply lines_of_split_on|]);
      (split; [by intros l ->%lines_of_split_on|]); done.
Qed.

(** C9. When the process completes with exit status zero and an empty
    standard output the invoker prints the empty-output error and returns
    [None], not the empty string. *)
Theorem run_prettier_empty_output
    (repr_other : json → string) (w : world) (cmd : list string) (text : string)
    (timeout : json) (stderr : string) :
  run_process w cmd text (working_dir w) timeout = Ok (0, "", stderr) →
  run_prettier repr_other w cmd text timeout
  = (Ok None, [Spawn cmd text (working_dir w) timeout;
               Print "ERROR: Prettier returned empty output"]).
Proof.
  intros Hrun. unfold run_prettier. by rewrite Hrun.
Qed.

(** A completion with exit status zero and some output is the success. *)
Lemma run_prettier_success
    (repr_other : json → string) (w : world) (cmd : list string) (text : string)
    (timeout : json) (stdout stderr : string) :
  run_process w cmd text (working_dir w) timeout = Ok (0, stdout, stderr) →
  stdout ≠ "" →
  run_prettier repr_other w cmd text timeout
  = (Ok (Some stdout), [Spawn cmd text (working_dir w) timeout]).
Proof.
  intros Hrun Hout. unfold run_prettier. rewrite Hrun. unfold on_completion.
  simpl. apply String.eqb_neq in Hout. by rewrite Hout.
Qed.

(** The invoker never raises: every outcome of the process is turned into
    a returned value. *)
Lemma run_prettier_total
    (repr_other : json → string) (w : world) (cmd : list string) (text : string)
    (timeout : json) :
  ∃ r t, run_prettier repr_other w cmd text timeout = (Ok r, t).
Proof.
  unfold run_prettier.
  destruct (run_process w cmd text (working_dir w) timeout) as [[[rc out] err]|e].
  - unfold on_completion. destruct (negb (rc =? 0)).
    + destruct (contains _ _ || contains _ _); simpl; eauto.
    + destruct (String.eqb out ""); simpl; eauto.
  - destruct e; simpl; eauto.
Qed.

(** How [do_format] reaches the invoker: for a text that is not blank, a
    supported language, a configuration, an executable and a command, the
    result is the invoker's. *)
Lemma do_format_invokes
    (repr_other : json → string) (w : world) (text lexer parser prettier_path : string)
    (config : gmap string json) (cmd : list string) (timeout : json)
    (t1 t2 t3 t4 : list event) :
  only_whitespace text = false →
  LEXER_TO_PARSER !! effective_lexer w lexer = Some parser →
  load_config w = (Ok config, t1) →
  find_prettier_executable w config = (Ok (Some prettier_path), t2) →
  prettier_path ≠ "" →
  build_prettier_command repr_other prettier_path parser config = (Ok cmd, t3) →
  checked_timeout repr_other config = (Ok timeout, t4) →
  do_format repr_other w text lexer
  = ((run_prettier repr_other w cmd text timeout).1,
     t1 ++ t2 ++ t3 ++ [Print ("Prettier: Formatting with parser: " +:+ parser)]
        ++ t4 ++ (run_prettier repr_other w cmd text timeout).2).
Proof.
  intros Htext Hparser Hload Hfind Hpath Hbuild Htimeout.
  unfold do_format. rewrite blank_guard, Htext.
  fold (effective_lexer w lexer). rewrite Hparser.
  rewrite (LEXER_TO_PARSER_nonempty _ _ Hparser).
  apply String.eqb_neq in Hpath.
  unfold mbind, io_mbind, io_bind. rewrite Hload, Hfind, Hpath, Hbuild.
  simpl. rewrite Htimeout.
  destruct (run_prettier repr_other w cmd text timeout) as [r t5].
  done.
Qed.

(** * Properties of the loaded configuration *)

(** [load_config] never raises, and what it returns always has the merged
    shape (the defaults are the merge of nothing). *)
Lemma load_config_outcome (w : world) :
  ∃ config t top opts,
    load_config w = (Ok config, t) ∧
    top !! "prettier_options" = None ∧
    config = merged_shape top opts.
Proof.
  assert (Hdef : ∀ t : list event, ∃ config t' top opts,
    ((Ok (filter_comment_keys DEFAULT_CONFIG), t) : io (gmap string json))
    = (Ok config, t') ∧
    top !! "prettier_options" = None ∧ config = merged_shape top opts).
  { intros t. exists (filter_comment_keys DEFAULT_CONFIG), t, ∅, ∅.
    by rewrite merged_shape_default. }
  unfold load_config. destruct (get_config_path w) as [p|]; [|apply Hdef].
  destruct (path_exists w p); simpl negb; cbv iota.
  - destruct (read_config w p) as [u| |e]; try apply Hdef.
    destruct (merge_user_config u) as [c|e] eqn:E; [|apply Hdef].
    destruct (merge_user_config_shape u c E) as (top & opts & Htop & ->).
    by exists (merged_shape top opts), [], top, opts.
  - destruct (create_config w p); apply Hdef.
Qed.

Lemma load_config_parsed (w : world) (path : string) (user_config : json)
    (config : gmap string json) :
  get_config_path w = Some path →
  path_exists w path = true →
  read_config w path = Parsed user_config →
  merge_user_config user_config = Ok config →
  load_config w = (Ok config, []).
Proof.
  intros Hp He Hr Hm. unfold load_config. by rewrite Hp, He, Hr, Hm.
Qed.

(** C4. The merge of [load_config] is idempotent: when the configuration
    file holds a configuration that [load_config] returned, loading it
    returns that same configuration: no key is added and none is lost, at
    the top level and in the options block. *)
Theorem load_config_merge_idempotent
    (w w' : world) (config : gmap string json) (path : string) :
  (load_config w).1 = Ok config →
  get_config_path w' = Some path →
  path_exists w' path = true →
  read_config w' path = Parsed (JDict config) →
  merge_user_config (JDict config) = Ok config ∧
  load_config w' = (Ok config, []).
Proof.
  intros Hload Hp He Hr.
  destruct (load_config_outcome w) as (c & t & top & opts & Hw & Htop & ->).
  rewrite Hw in Hload. injection Hload as <-.
  pose proof (merge_user_config_of_shape top opts Htop) as Hm.
  split; [done|]. by apply (load_config_parsed w' path (JDict (merged_shape top opts))).
Qed.

(** What holds of every loaded configuration: the options block is a dict
    with every key of the default options; no comment key is at the top
    level. *)
Lemma load_config_invariant (w : world) :
  ∃ config t options,
    load_config w = (Ok config, t) ∧
    config !! "prettier_options" = Some (JDict options) ∧
    (∀ k, is_Some (DEFAULT_OPTIONS !! k) → is_Some (options !! k)) ∧
    (∀ k, is_comment_key k = true → config !! k = None) ∧
    (∀ k, is_comment_key k = true → options !! k = DEFAULT_OPTIONS !! k).
Proof.
  destruct (load_config_outcome w) as (c & t & top & opts & Hw & Htop & ->).
  exists (merged_shape top opts), t, (filter_comment_keys opts ∪ DEFAULT_OPTIONS).
  split; [done|]. split; [by apply merged_shape_options|].
  split; [|split].
  - intros k [v Hk]. rewrite lookup_union, Hk.
    destruct (filter_comment_keys opts !! k); eauto.
  - intros k Hk. rewrite merged_shape_lookup_ne, Hk; [done|].
    by intros ->.
  - intros k Hk. rewrite lookup_union, filter_comment_keys_lookup, Hk.
    by destruct (DEFAULT_OPTIONS !! k).
Qed.

(** C5. The options block of every configuration that [load_config]
    returns has all the default option keys, and the top level has no
    comment key; but the options block still holds the comment keys of
    [DEFAULT_CONFIG['prettier_options']], for instance ["// printWidth"]:
    [_filter_comments] is applied to the top level of the defaults only. *)
Theorem load_config_keeps_default_option_comments (w : world) :
  ∃ config t options,
    load_config w = (Ok config, t) ∧
    config !! "prettier_options" = Some (JDict options) ∧
    is_comment_key "// printWidth" = true ∧
    options !! "// printWidth" = Some (JStr "Line length (default: 80)").
Proof.
  destruct (load_config_invariant w) as (c & t & o & Hw & Ho & _ & _ & Hc).
  exists c, t, o. split; [done|]. split; [done|]. split; [done|].
  rewrite Hc by done. vm_compute. reflexivity.
Qed.

(** ** Comment stripping *)

(** On every mapping [_filter_comments] removes exactly the keys that begin
    with [//] and keeps every other key with its value; [load_config]
    applies it to the top level of the user document and to its options
    block, so at both levels a [//] key of the user document does not
    reach the loaded configuration and every other user key is kept with
    its value. *)
Lemma filter_comments_exact_per_level
    (d user_config user_options : gmap string json) (k : string) :
  user_config !! "prettier_options" = Some (JDict user_options) →
  _filter_comments (JDict d) = Ok (filter_comment_keys d) ∧
  (is_comment_key k = true → filter_comment_keys d !! k = None) ∧
  (is_comment_key k = false → filter_comment_keys d !! k = d !! k) ∧
  ∃ config options,
    merge_user_config (JDict user_config) = Ok config ∧
    config !! "prettier_options" = Some (JDict options) ∧
    (is_comment_key k = true →
       config !! k = None ∧ options !! k = DEFAULT_OPTIONS !! k) ∧
    (is_comment_key k = false →
       (k ≠ "prettier_options" →
          ∀ v, user_config !! k = Some v → config !! k = Some v) ∧
       (∀ v, user_options !! k = Some v → options !! k = Some v)).
Proof.
  intros Hblock. split; [done|].
  split; [intros Hk; by rewrite filter_comment_keys_lookup, Hk|].
  split; [intros Hk; by rewrite filter_comment_keys_lookup, Hk|].
  exists (merged_shape (delete "prettier_options" user_config) user_options),
    (filter_comment_keys user_options ∪ DEFAULT_OPTIONS).
  split; [by apply merge_user_config_block|].
  split; [apply merged_shape_options, lookup_delete_eq|].
  split.
  - intros Hk. split.
    + rewrite merged_shape_lookup_ne, Hk; [done|]. by intros ->.
    + rewrite lookup_union, filter_comment_keys_lookup, Hk.
      by destruct (DEFAULT_OPTIONS !! k).
  - intros Hk. split.
    + intros Hne v Hv.
      by rewrite merged_shape_lookup_ne, Hk, lookup_delete_ne, Hv.
    + intros v Hv. rewrite lookup_union, filter_comment_keys_lookup, Hk, Hv.
      by destruct (DEFAULT_OPTIONS !! k).
Qed.

(** C6. [_filter_comments] removes exactly the [//] keys of the mapping it
    is given and keeps the other keys with their values
    ([filter_comment_keys_lookup]), and [load_config] applies it to both
    levels of the user document ([filter_comments_exact_per_level]). But
    the stripping of the defaults, [_filter_comments(copy.deepcopy(
    DEFAULT_CONFIG))], reaches the top level only: every [//] key of the
    top level is gone and the options block comes out as it went in, with
    its [//] keys, for instance ["// printWidth"]. *)
Theorem filter_comments_default_options_block :
  ∃ config options,
    _filter_comments (JDict DEFAULT_CONFIG) = Ok config ∧
    (∀ k, is_comment_key k = true → config !! k = None) ∧
    config !! "prettier_options" = Some (JDict options) ∧
    options = DEFAULT_OPTIONS ∧
    is_comment_key "// printWidth" = true ∧
    options !! "// printWidth" = Some (JStr "Line length (default: 80)").
Proof.
  exists (filter_comment_keys DEFAULT_CONFIG), DEFAULT_OPTIONS.
  split; [done|].
  split; [intros k Hk; by rewrite filter_comment_keys_lookup, Hk|].
  split; [apply default_config_options|].
  split; [done|]. split; [done|]. vm_compute. reflexivity.
Qed.

(** ** Timeout validation *)

Lemma checked_timeout_total (repr_other : json → string) (config : gmap string json) :
  ∃ timeout t, checked_timeout repr_other config = (Ok timeout, t).
Proof.
  unfold checked_timeout. destruct (_ || _); simpl; eauto.
Qed.

Lemma checked_timeout_absent (repr_other : json → string) (config : gmap string json) :
  config !! "timeout_seconds" = None →
  checked_timeout repr_other config = (Ok (JInt 10), []).
Proof. intros H. unfold checked_timeout. by rewrite H. Qed.

Lemma checked_timeout_not_number
    (repr_other : json → string) (config : gmap string json) (v : json) :
  config !! "timeout_seconds" = Some v →
  is_int_or_float v = false →
  (checked_timeout repr_other config).1 = Ok (JInt 10).
Proof.
  intros H Hv. unfold checked_timeout. rewrite H. simpl. by rewrite Hv.
Qed.

Lemma checked_timeout_int
    (repr_other : json → string) (config : gmap string json) (z : Z) :
  config !! "timeout_seconds" = Some (JInt z) →
  (z ≤ 0 → (checked_timeout repr_other config).1 = Ok (JInt 10)) ∧
  (0 < z → checked_timeout repr_other config = (Ok (JInt z), [])).
Proof.
  intros H. unfold checked_timeout. rewrite H. simpl. split; intros Hz.
  - by rewrite (proj2 (Z.leb_le z 0) Hz).
  - by rewrite (proj2 (Z.leb_gt z 0) Hz).
Qed.

Lemma checked_timeout_float
    (repr_other : json → string) (config : gmap string json) (f : spec_float) :
  config !! "timeout_seconds" = Some (JFloat f) →
  (SFleb f (S754_zero false) = true →
     (checked_timeout repr_other config).1 = Ok (JInt 10)) ∧
  (SFltb (S754_zero false) f = true →
     checked_timeout repr_other config = (Ok (JFloat f), [])).
Proof.
  intros H. unfold checked_timeout. rewrite H. simpl. split; intros Hf.
  - by rewrite Hf.
  - destruct f as [s|s| |s m e]; try done; destruct s; done.
Qed.

(** The validation lets two values through that are not positive numbers:
    the JSON boolean [true] ([bool] is a subclass of [int], and
    [True <= 0] is false) and the float NaN ([nan <= 0] is false). *)
Lemma checked_timeout_keeps_true_and_nan (repr_other : json → string) :
  checked_timeout repr_other (dict_of [("timeout_seconds", JBool true)])
  = (Ok (JBool true), []) ∧
  checked_timeout repr_other (dict_of [("timeout_seconds", JFloat S754_nan)])
  = (Ok (JFloat S754_nan), []).
Proof. split; reflexivity. Qed.

(** C7. The validation replaces a timeout that is not an [int] or [float]
    instance, or that is [<= 0], by 10 and never raises
    ([checked_timeout_not_number], [checked_timeout_int],
    [checked_timeout_float], [checked_timeout_total]). But with
    ["timeout_seconds": true] in the configuration file the format
    operation prints no note and hands [True] to [communicate] as the
    timeout, and with [NaN] it hands NaN: neither is replaced by 10. *)
Theorem do_format_keeps_true_and_nan_timeout (repr_other : json → string) :
  let run timeout :=
    do_format repr_other
      (sample_world (Parsed (JDict (dict_of [("timeout_seconds", timeout)])))
                    (Ok (0, "const x = 1;", "")))
      "const x=1" "JavaScript" in
  let trace timeout :=
    [Probe ["npx"; "prettier"; "--version"];
     Probe ["yarn"; "exec"; "prettier"; "--version"];
     Probe ["pnpm"; "exec"; "prettier"; "--version"];
     Probe ["bunx"; "prettier"; "--version"];
     Print "Prettier: Found in PATH: /usr/bin/prettier";
     Print "Prettier: Command: /usr/bin/prettier --parser babel --no-color";
     Print "Prettier: Formatting with parser: babel";
     Spawn ["/usr/bin/prettier"; "--parser"; "babel"; "--no-color"]
           "const x=1" None timeout] in
  run (JBool true) = (Ok (Some "const x = 1;"), trace (JBool true)) ∧
  run (JFloat S754_nan) = (Ok (Some "const x = 1;"), trace (JFloat S754_nan)).
Proof. split; vm_compute; reflexivity. Qed.

(** * The theorems at concrete inputs *)

Lemma build_prettier_command_range_always_explicit_witness :
  ∃ pre,
    (build_prettier_command (fun _ => "") "/usr/bin/prettier" "babel"
       (dict_of [("use_prettier_config_file", JBool false);
                 ("prettier_options",
                  JDict (dict_of [("semi", JBool false);
                                  ("quoteProps", JStr "consistent")]))])).1
    = Ok (pre ++ ["--range-start"; "0"; "--range-end"; "Infinity"]).
Proof.
  destruct (build_prettier_command_range_always_explicit
              (fun _ => "") "/usr/bin/prettier" "babel"
              (dict_of [("use_prettier_config_file", JBool false);
                        ("prettier_options",
                         JDict (dict_of [("semi", JBool false);
                                         ("quoteProps", JStr "consistent")]))]))
    as [Hend Htotal].
  - vm_compute. reflexivity.
  - destruct (Htotal (dict_of [("semi", JBool false);
                               ("quoteProps", JStr "consistent")]))
      as [cmd Hcmd].
    + vm_compute. reflexivity.
    + vm_compute. reflexivity.
    + destruct (Hend cmd Hcmd) as (options & pre & S & E & Hopts & -> & HS & _ & HE & _).
      injection Hopts as <-.
      exists pre. rewrite Hcmd, HS, HE.
      * reflexivity.
      * left. vm_compute. reflexivity.
      * left. vm_compute. reflexivity.
Defined.

Lemma build_prettier_command_project_config_witness :
  build_prettier_command (fun _ => "") "npx prettier" "babel"
    (dict_of [("use_prettier_config_file", JBool true);
              ("prettier_options", JDict (dict_of [("semi", JBool false)]))])
  = (Ok ["npx"; "prettier"; "--parser"; "babel"; "--no-color"],
     [Print "Prettier: Command: npx prettier --parser babel --no-color"]).
Proof.
  apply (build_prettier_command_project_config (fun _ => "") "npx prettier" "babel").
  vm_compute. reflexivity.
Defined.

Lemma lexer_lookup_explicit_witness :
  LEXER_TO_PARSER !! "JavaScript" = Some "babel" ∧
  do_format (fun _ => "") (sample_world DecodeError (Ok (0, "", "")))
    "const x=1" "PlainText"
  = (Ok None,
     [Print ("NOTE: Prettier does not support lexer "
             +:+ dquote +:+ "PlainText" +:+ dquote)]).
Proof.
  destruct (lexer_lookup_explicit (fun _ => "")
              (sample_world DecodeError (Ok (0, "", ""))) "const x=1" "PlainText")
    as (Htable & _ & Habsent & _).
  split.
  - apply Htable. cbn [In]. left. reflexivity.
  - apply Habsent.
    + vm_compute. reflexivity.
    + vm_compute. reflexivity.
Defined.

Lemma load_config_merge_idempotent_witness :
  let user_file :=
    JDict (dict_of [("timeout_seconds", JInt 3); ("// note", JStr "mine");
                    ("prettier_options",
                     JDict (dict_of [("semi", JBool false); ("// semi", JStr "off");
                                     ("plugins", JStr "x")]))]) in
  let config := merged_shape (dict_of [("timeout_seconds", JInt 3)])
                             (dict_of [("semi", JBool false); ("plugins", JStr "x")]) in
  (load_config (sample_world (Parsed user_file) (Ok (0, "", "")))).1 = Ok config ∧
  load_config (sample_world (Parsed (JDict config)) (Ok (0, "", ""))) = (Ok config, []).
Proof.
  intros user_file config.
  assert (H : (load_config (sample_world (Parsed user_file) (Ok (0, "", "")))).1
              = Ok config).
  { vm_compute. reflexivity. }
  split; [exact H|].
  apply (load_config_merge_idempotent
           (sample_world (Parsed user_file) (Ok (0, "", "")))
           (sample_world (Parsed (JDict config)) (Ok (0, "", "")))
           config "/settings/cuda_fmt_prettier.json").
  - exact H.
  - reflexivity.
  - reflexivity.
  - reflexivity.
Defined.

Lemma filter_comments_exact_per_level_witness :
  ∃ config options,
    merge_user_config
      (JDict (dict_of [("// note", JStr "mine");
                       ("prettier_options",
                        JDict (dict_of [("semi", JBool false);
                                        ("// semi", JStr "off")]))]))
    = Ok config ∧
    config !! "prettier_options" = Some (JDict options) ∧
    config !! "// note" = None ∧
    options !! "// semi" = DEFAULT_OPTIONS !! "// semi".
Proof.
  destruct (filter_comments_exact_per_level
              ∅
              (dict_of [("// note", JStr "mine");
                        ("prettier_options",
                         JDict (dict_of [("semi", JBool false);
                                         ("// semi", JStr "off")]))])
              (dict_of [("semi", JBool false); ("// semi", JStr "off")])
              "// note")
    as (_ & _ & _ & config & options & Hm & Ho & Hc & _).
  - vm_compute. reflexivity.
  - exists config, options. split; [exact Hm|]. split; [exact Ho|].
    split; [apply Hc; reflexivity|].
    destruct (filter_comments_exact_per_level
                ∅
                (dict_of [("// note", JStr "mine");
                          ("prettier_options",
                           JDict (dict_of [("semi", JBool false);
                                           ("// semi", JStr "off")]))])
                (dict_of [("semi", JBool false); ("// semi", JStr "off")])
                "// semi")
      as (_ & _ & _ & config' & options' & Hm' & Ho' & Hc' & _).
    + vm_compute. reflexivity.
    + rewrite Hm in Hm'. injection Hm' as <-.
      rewrite Ho in Ho'. injection Ho' as <-.
      apply Hc'. reflexivity.
Defined.

Lemma run_prettier_process_failure_witness :
  run_prettier (fun _ => "")
    (sample_world DecodeError
       (Ok (2, "",
            String nl "[error] stdin: SyntaxError: Unexpected token (1:7)"
            +:+ String nl "[error] > 1 | const ="
            +:+ String nl "[error]     |       ^"
            +:+ String nl "[error]   2 | let y"
            +:+ String nl "[error]   3 | let z"
            +:+ String nl "  ")))
    ["/usr/bin/prettier"; "--parser"; "babel"; "--no-color"] "const =" (JInt 10)
  = (Ok None,
     [Spawn ["/usr/bin/prettier"; "--parser"; "babel"; "--no-color"] "const ="
            None (JInt 10);
      Print ("ERROR: Prettier syntax error:"
             +:+ String nl "  [error] stdin: SyntaxError: Unexpected token (1:7)"
             +:+ String nl "  [error] > 1 | const ="
             +:+ String nl "  [error]     |       ^")]).
Proof.
  destruct (run_prettier_process_failure (fun _ => "")
              (sample_world DecodeError
                 (Ok (2, "",
                      String nl "[error] stdin: SyntaxError: Unexpected token (1:7)"
                      +:+ String nl "[error] > 1 | const ="
                      +:+ String nl "[error]     |       ^"
                      +:+ String nl "[error]   2 | let y"
                      +:+ String nl "[error]   3 | let z"
                      +:+ String nl "  ")))
              ["/usr/bin/prettier"; "--parser"; "babel"; "--no-color"] "const ="
              (JInt 10) 2 ""
              (String nl "[error] stdin: SyntaxError: Unexpected token (1:7)"
               +:+ String nl "[error] > 1 | const ="
               +:+ String nl "[error]     |       ^"
               +:+ String nl "[error]   2 | let y"
               +:+ String nl "[error]   3 | let z"
               +:+ String nl "  "))
    as (error_msg & lines & diagnostic & Hrun & _ & Hmsg & _ & Hlines & Hsyntax & _).
  - reflexivity.
  - lia.
  - rewrite Hrun, Hsyntax by (vm_compute; reflexivity).
    rewrite <- (Hlines ["[error] stdin: SyntaxError: Unexpected token (1:7)";
                        "[error] > 1 | const =";
                        "[error]     |       ^";
                        "[error]   2 | let y";
                        "[error]   3 | let z"]).
    + vm_compute. reflexivity.
    + rewrite Hmsg by (vm_compute; discriminate).
      split; [discriminate|]. split; vm_compute; reflexivity.
Defined.

Lemma run_prettier_empty_output_witness :
  run_prettier (fun _ => "") (sample_world DecodeError (Ok (0, "", "")))
    ["/usr/bin/prettier"; "--parser"; "babel"; "--no-color"] "const x=1" (JInt 10)
  = (Ok None,
     [Spawn ["/usr/bin/prettier"; "--parser"; "babel"; "--no-color"] "const x=1"
            None (JInt 10);
      Print "ERROR: Prettier returned empty output"]).
Proof.
  apply (run_prettier_empty_output (fun _ => "")
           (sample_world DecodeError (Ok (0, "", "")))
           ["/usr/bin/prettier"; "--parser"; "babel"; "--no-color"] "const x=1"
           (JInt 10) "").
  reflexivity.
Defined.

Lemma do_format_blank_text_unchanged_witness :
  do_format (fun _ => "") (sample_world DecodeError (Ok (0, "", "")))
    (String " " (String nl " ")) "JavaScript"
  = (Ok (Some (String " " (String nl " "))), []).
Proof.
  apply (do_format_blank_text_unchanged (fun _ => "")
           (sample_world DecodeError (Ok (0, "", "")))
           (String " " (String nl " ")) "JavaScript").
  vm_compute. reflexivity.
Defined.

(** * More on the command builder *)

Lemma as_strings_Ok_inv (l : list json) (c : list string) :
  as_strings l = Ok c → l = JStr <$> c.
Proof.
  revert c. induction l as [|v l IH]; intros c; simpl.
  - by intros [= <-].
  - destruct v; try discriminate.
    destruct (as_strings l) as [c'|] eqn:E; [|discriminate].
    intros [= <-]. by rewrite (IH c' eq_refl).
Qed.

Lemma as_strings_Raise_inv (l : list json) (e : exn) :
  as_strings l = Raise e → e = TypeError.
Proof.
  induction l as [|v l IH]; simpl; [discriminate|].
  destruct v; try (by intros [= <-]).
  destruct (as_strings l) as [c'|e'] eqn:E; [discriminate|].
  intros [= <-]. by apply IH.
Qed.

Section OptionTable.

Variable repr_other : json → string.
Variable d : gmap string json.

Lemma extend_str_tokens (key flag : string) (cmd : list json) :
  extend_str repr_other (JDict d) key flag cmd
  = Ok (cmd ++ option_tokens repr_other d (AsStr, key, flag)).
Proof.
  unfold extend_str. simpl. destruct (d !! key) as [v|] eqn:E.
  - by rewrite bool_decide_eq_true_2 by eauto.
  - rewrite bool_decide_eq_false_2 by (by intros [? ?]).
    simpl. by rewrite app_nil_r.
Qed.

Lemma extend_raw_tokens (key flag : string) (cmd : list json) :
  extend_raw (JDict d) key flag cmd
  = Ok (cmd ++ option_tokens repr_other d (AsIs, key, flag)).
Proof.
  unfold extend_raw. simpl. destruct (d !! key) as [v|] eqn:E.
  - by rewrite bool_decide_eq_true_2 by eauto.
  - rewrite bool_decide_eq_false_2 by (by intros [? ?]).
    simpl. by rewrite app_nil_r.
Qed.

Lemma append_if_tokens (key flag : string) (cmd : list json) :
  append_if (JDict d) key flag cmd
  = Ok (cmd ++ option_tokens repr_other d (WhenTrue, key, flag)).
Proof.
  unfold append_if. simpl. destruct (truthy _); [done|]. by rewrite app_nil_r.
Qed.

Lemma append_unless_tokens (key flag : string) (cmd : list json) :
  append_unless (JDict d) key flag cmd
  = Ok (cmd ++ option_tokens repr_other d (WhenFalse, key, flag)).
Proof.
  unfold append_unless. simpl. destruct (truthy _); [|done]. by rewrite app_nil_r.
Qed.

(** The inline options of the builder are the rows of [OPTION_TABLE], in
    order. *)
Lemma inline_options_table (cmd : list json) :
  inline_options repr_other (JDict d) cmd
  = Ok (cmd ++ flat_map (option_tokens repr_other d) OPTION_TABLE).
Proof.
  unfold inline_options.
  repeat first
    [ rewrite extend_str_tokens, result_bind_Ok
    | rewrite extend_raw_tokens, result_bind_Ok
    | rewrite append_if_tokens, result_bind_Ok
    | rewrite append_unless_tokens, result_bind_Ok ].
  rewrite append_if_tokens.
  unfold OPTION_TABLE. cbn [flat_map]. rewrite app_nil_r.
  by rewrite <- !(assoc_L (++)).
Qed.

Lemma string_options_ok_tokens :
  string_options_ok d = true →
  ∃ strs, flat_map (option_tokens repr_other d) OPTION_TABLE = JStr <$> strs.
Proof.
  intros Hok.
  assert (Hrow : ∀ row, In row OPTION_TABLE →
            ∃ strs, option_tokens repr_other d row = JStr <$> strs).
  { intros [[kind key] flag] Hin. destruct kind; simpl.
    - destruct (d !! key) as [v|];
        [by exists [flag; py_str repr_other v]|by exists []].
    - assert (Hk : holds_string (d !! key) = true).
      { apply (string_options_ok_elim d key Hok).
        simpl in Hin.
        repeat (destruct Hin as [Hin|Hin];
                [try discriminate; injection Hin as <- <-; simpl; tauto|]).
        destruct Hin. }
      destruct (d !! key) as [[| | | |s| |]|]; try discriminate;
        [by exists [flag; s]|by exists []].
    - destruct (truthy _); [by exists [flag]|by exists []].
    - destruct (truthy _); [by exists []|by exists [flag]]. }
  induction OPTION_TABLE as [|row table IH]; [by exists []|].
  destruct (Hrow row (or_introl eq_refl)) as [s1 H1].
  destruct IH as [s2 H2]; [intros r Hr; apply Hrow; by right|].
  exists (s1 ++ s2). simpl. by rewrite H1, H2, fmap_app.
Qed.

Lemma tokens_string_options_ok :
  (∀ v, In v (flat_map (option_tokens repr_other d) OPTION_TABLE) → ∃ s, v = JStr s) →
  string_options_ok d = true.
Proof.
  intros Hall.
  assert (Hkey : ∀ key flag, In (AsIs, key, flag) OPTION_TABLE →
                   holds_string (d !! key) = true).
  { intros key flag Hin. destruct (d !! key) as [v|] eqn:E; [|done].
    destruct (Hall v) as [s ->]; [|done].
    apply in_flat_map. exists (AsIs, key, flag). split; [done|].
    simpl. rewrite E. right. by left. }
  unfold string_options_ok, string_options. simpl.
  rewrite (Hkey "quoteProps" "--quote-props") by (simpl; tauto).
  rewrite (Hkey "trailingComma" "--trailing-comma") by (simpl; tauto).
  rewrite (Hkey "arrowParens" "--arrow-parens") by (simpl; tauto).
  rewrite (Hkey "endOfLine" "--end-of-line") by (simpl; tauto).
  rewrite (Hkey "proseWrap" "--prose-wrap") by (simpl; tauto).
  rewrite (Hkey "htmlWhitespaceSensitivity" "--html-whitespace-sensitivity")
    by (simpl; tauto).
  rewrite (Hkey "embeddedLanguageFormatting" "--embedded-language-formatting")
    by (simpl; tauto).
  rewrite (Hkey "objectWrap" "--object-wrap") by (simpl; tauto).
  reflexivity.
Qed.

End OptionTable.

Lemma print_and_return_Raise (cmd_parts : list json) (e : exn) :
  as_strings cmd_parts = Raise e → print_and_return cmd_parts = (Raise e, []).
Proof. intros H. unfold print_and_return. by rewrite H. Qed.

(** The command parts the builder joins when it builds inline options
    from the options dict [d]. *)
Lemma build_prettier_command_parts
    (repr_other : json → string) (prettier_path parser : string)
    (config d : gmap string json) :
  truthy (default (JBool true) (config !! "use_prettier_config_file")) = false →
  default (JDict ∅) (config !! "prettier_options") = JDict d →
  build_prettier_command repr_other prettier_path parser config
  = print_and_return
      ((JStr <$> (seed_tokens prettier_path ++ ["--parser"; parser; "--no-color"]))
       ++ flat_map (option_tokens repr_other d) OPTION_TABLE
       ++ (JStr <$> range_tokens repr_other d)).
Proof.
  intros Hflag Hopts. unfold build_prettier_command.
  rewrite Hflag, Hopts, inline_options_table, io_bind_lift_Ok,
    range_options_dict, io_bind_lift_Ok.
  f_equal. rewrite fmap_app. unfold range_tokens.
  by rewrite <- !(assoc_L (++)).
Qed.

(** X10. The command line as a table. With inline options and an options
    dict whose rows all give strings, the command is the seed tokens,
    [--parser P --no-color], the tokens of the rows of [OPTION_TABLE] in
    order, and the two range options; it is printed once. *)
Theorem build_prettier_command_by_table
    (repr_other : json → string) (prettier_path parser : string)
    (config d : gmap string json) (toks : list string) :
  truthy (default (JBool true) (config !! "use_prettier_config_file")) = false →
  default (JDict ∅) (config !! "prettier_options") = JDict d →
  as_strings (flat_map (option_tokens repr_other d) OPTION_TABLE) = Ok toks →
  let cmd := seed_tokens prettier_path ++ ["--parser"; parser; "--no-color"]
             ++ toks ++ range_tokens repr_other d in
  build_prettier_command repr_other prettier_path parser config
  = (Ok cmd, [Print ("Prettier: Command: " +:+ join " " cmd)]).
Proof.
  intros Hflag Hopts Htoks cmd.
  rewrite (build_prettier_command_parts _ _ _ _ d Hflag Hopts).
  rewrite (as_strings_Ok_inv _ _ Htoks), <- !fmap_app, print_and_return_strs.
  unfold cmd. by rewrite <- !(assoc_L (++)).
Qed.

Lemma build_prettier_command_dichotomy
    (repr_other : json → string) (prettier_path parser : string)
    (config d : gmap string json) :
  truthy (default (JBool true) (config !! "use_prettier_config_file")) = false →
  default (JDict ∅) (config !! "prettier_options") = JDict d →
  (string_options_ok d = true →
     ∃ cmd, build_prettier_command repr_other prettier_path parser config
            = (Ok cmd, [Print ("Prettier: Command: " +:+ join " " cmd)])) ∧
  (string_options_ok d = false →
     build_prettier_command repr_other prettier_path parser config
     = (Raise TypeError, [])).
Proof.
  intros Hflag Hopts.
  rewrite (build_prettier_command_parts _ _ _ _ d Hflag Hopts). split.
  - intros Hok. destruct (string_options_ok_tokens repr_other d Hok) as [strs ->].
    rewrite <- !fmap_app, print_and_return_strs. eauto.
  - intros Hbad.
    destruct (as_strings
                ((JStr <$> (seed_tokens prettier_path ++ ["--parser"; parser; "--no-color"]))
                 ++ flat_map (option_tokens repr_other d) OPTION_TABLE
                 ++ (JStr <$> range_tokens repr_other d))) as [c|e] eqn:E.
    + apply as_strings_Ok_inv in E. symmetry in E.
      apply fmap_app_inv in E as (c1 & c' & _ & E & _). symmetry in E.
      apply fmap_app_inv in E as (c2 & c3 & E & _ & _).
      rewrite (tokens_string_options_ok repr_other d) in Hbad; [done|].
      intros v Hv. rewrite E in Hv. apply in_map_iff in Hv as (s & <- & _). eauto.
    + rewrite (as_strings_Raise_inv _ _ E) in E.
      by apply print_and_return_Raise.
Qed.

(** X11. The builder and ill-typed options. With inline options and an
    options dict, the builder returns a command when every string-valued
    option holds a string, and otherwise raises [TypeError] before it
    prints anything. *)
Theorem build_prettier_command_type_error
    (repr_other : json → string) (prettier_path parser : string)
    (config d : gmap string json) :
  truthy (default (JBool true) (config !! "use_prettier_config_file")) = false →
  default (JDict ∅) (config !! "prettier_options") = JDict d →
  (string_options_ok d = true →
     ∃ cmd, build_prettier_command repr_other prettier_path parser config
            = (Ok cmd, [Print ("Prettier: Command: " +:+ join " " cmd)])) ∧
  (string_options_ok d = false →
     build_prettier_command repr_other prettier_path parser config
     = (Raise TypeError, [])).
Proof.
  exact (build_prettier_command_dichotomy repr_other prettier_path parser config d).
Qed.

Lemma build_prettier_command_project_parts
    (repr_other : json → string) (prettier_path parser : string)
    (config : gmap string json) :
  truthy (default (JBool true) (config !! "use_prettier_config_file")) = true →
  build_prettier_command repr_other prettier_path parser config
  = print_and_return
      (JStr <$> (seed_tokens prettier_path ++ ["--parser"; parser; "--no-color"])).
Proof.
  intros Hflag. unfold build_prettier_command. rewrite Hflag.
  f_equal. by rewrite fmap_app, <- (assoc_L (++)).
Qed.

(** X12. What every command starts with. Whatever the configuration, a
    command that the builder returns starts with the seed tokens of the
    executable followed by [--parser P --no-color]. *)
Theorem build_prettier_command_prefix
    (repr_other : json → string) (prettier_path parser : string)
    (config : gmap string json) (cmd : list string) :
  (build_prettier_command repr_other prettier_path parser config).1 = Ok cmd →
  ∃ rest, cmd = seed_tokens prettier_path ++ ["--parser"; parser; "--no-color"] ++ rest.
Proof.
  destruct (truthy (default (JBool true) (config !! "use_prettier_config_file")))
    eqn:Hflag.
  - rewrite (build_prettier_command_project_parts _ _ _ _ Hflag),
      print_and_return_strs.
    intros [= <-]. exists []. by rewrite app_nil_r.
  - destruct (default (JDict ∅) (config !! "prettier_options"))
      as [| | | | | |d] eqn:Hopts;
      try (destruct (build_prettier_command_bad_options repr_other prettier_path
                       parser config Hflag) as [e He];
           [rewrite Hopts; discriminate | congruence]).
    rewrite (build_prettier_command_parts _ _ _ _ d Hflag Hopts),
      print_and_return_outcome.
    intros H. apply as_strings_app_inv in H as (c1 & c2 & H1 & _ & ->).
    rewrite as_strings_strs in H1. injection H1 as <-.
    exists c2. by rewrite <- !(assoc_L (++)).
Qed.

(** X13. No options at all. With inline options and an options block that
    is absent or empty, the command has the mandatory tokens and the two
    range options with their defaults, and nothing else: an absent
    boolean option counts as its default. *)
Theorem build_prettier_command_no_options
    (repr_other : json → string) (prettier_path parser : string)
    (config : gmap string json) :
  truthy (default (JBool true) (config !! "use_prettier_config_file")) = false →
  config !! "prettier_options" = None ∨ config !! "prettier_options" = Some (JDict ∅) →
  (build_prettier_command repr_other prettier_path parser config).1
  = Ok (seed_tokens prettier_path
        ++ ["--parser"; parser; "--no-color";
            "--range-start"; "0"; "--range-end"; "Infinity"]).
Proof.
  intros Hflag Hopts.
  assert (Hd : default (JDict ∅) (config !! "prettier_options") = JDict ∅).
  { by destruct Hopts as [-> | ->]. }
  rewrite (build_prettier_command_parts _ _ _ _ ∅ Hflag Hd).
  change (flat_map (option_tokens repr_other ∅) OPTION_TABLE) with (@nil json).
  change (range_tokens repr_other ∅)
    with ["--range-start"; "0"; "--range-end"; "Infinity"].
  rewrite app_nil_l, <- fmap_app, print_and_return_strs. simpl.
  by rewrite <- (assoc_L (++)).
Qed.

Lemma row_tokens_in_command
    (repr_other : json → string) (prettier_path parser : string)
    (config d : gmap string json) (cmd : list string)
    (row : option_kind * string * string) :
  truthy (default (JBool true) (config !! "use_prettier_config_file")) = false →
  default (JDict ∅) (config !! "prettier_options") = JDict d →
  (build_prettier_command repr_other prettier_path parser config).1 = Ok cmd →
  In row OPTION_TABLE →
  ∃ toks pre post,
    option_tokens repr_other d row = JStr <$> toks ∧ cmd = pre ++ toks ++ post.
Proof.
  intros Hflag Hopts Hcmd Hrow.
  rewrite (build_prettier_command_parts _ _ _ _ d Hflag Hopts),
    print_and_return_outcome in Hcmd.
  apply as_strings_Ok_inv in Hcmd.
  apply in_split in Hrow as (t1 & t2 & Htable).
  rewrite Htable, flat_map_app in Hcmd. simpl flat_map in Hcmd.
  rewrite <- !(assoc_L (++)) in Hcmd. symmetry in Hcmd.
  apply fmap_app_inv in Hcmd as (c0 & c' & _ & Hcmd & ->). symmetry in Hcmd.
  apply fmap_app_inv in Hcmd as (c1 & c'' & _ & Hcmd & ->). symmetry in Hcmd.
  apply fmap_app_inv in Hcmd as (toks & c' & Htoks & _ & ->).
  exists toks, (c0 ++ c1), c'. split; [done|].
  by rewrite <- !(assoc_L (++)).
Qed.

(** X14. Each option reaches the command line. In a command built with
    inline options from the options dict [d]: a boolean option of the
    table that is truthy has its flag in the command; [semi] or
    [bracketSpacing] present with a falsy value has its [--no-...] flag;
    a value option that is present has its flag immediately followed by
    its value ([str()] of it for the numeric ones). *)
Theorem build_prettier_command_emits_options
    (repr_other : json → string) (prettier_path parser : string)
    (config d : gmap string json) (cmd : list string) (key flag : string) :
  truthy (default (JBool true) (config !! "use_prettier_config_file")) = false →
  default (JDict ∅) (config !! "prettier_options") = JDict d →
  (build_prettier_command repr_other prettier_path parser config).1 = Ok cmd →
  (In (WhenTrue, key, flag) OPTION_TABLE →
     truthy (default (JBool false) (d !! key)) = true → In flag cmd) ∧
  (In (WhenFalse, key, flag) OPTION_TABLE →
     truthy (default (JBool true) (d !! key)) = false → In flag cmd) ∧
  (In (AsStr, key, flag) OPTION_TABLE →
     ∀ v, d !! key = Some v →
       ∃ pre post, cmd = pre ++ [flag; py_str repr_other v] ++ post) ∧
  (In (AsIs, key, flag) OPTION_TABLE →
     ∀ v, d !! key = Some v →
       ∃ s pre post, v = JStr s ∧ cmd = pre ++ [flag; s] ++ post).
Proof.
  intros Hflag Hopts Hcmd.
  pose proof (row_tokens_in_command repr_other prettier_path parser config d cmd)
    as Hrow.
  split; [|split; [|split]].
  - intros Hin Hv.
    destruct (Hrow _ Hflag Hopts Hcmd Hin) as (toks & pre & post & Ht & ->).
    simpl in Ht. rewrite Hv in Ht.
    destruct toks as [|f [|? ?]]; try discriminate. injection Ht as <-.
    apply in_or_app. right. by left.
  - intros Hin Hv.
    destruct (Hrow _ Hflag Hopts Hcmd Hin) as (toks & pre & post & Ht & ->).
    simpl in Ht. rewrite Hv in Ht.
    destruct toks as [|f [|? ?]]; try discriminate. injection Ht as <-.
    apply in_or_app. right. by left.
  - intros Hin v Hv.
    destruct (Hrow _ Hflag Hopts Hcmd Hin) as (toks & pre & post & Ht & ->).
    simpl in Ht. rewrite Hv in Ht.
    destruct toks as [|f [|x [|? ?]]]; try discriminate.
    injection Ht as <- <-. by exists pre, post.
  - intros Hin v Hv.
    destruct (Hrow _ Hflag Hopts Hcmd Hin) as (toks & pre & post & Ht & ->).
    simpl in Ht. rewrite Hv in Ht.
    destruct toks as [|f [|x [|? ?]]]; try discriminate.
    injection Ht as <- ->. by exists x, pre, post.
Qed.

(** ** The seed tokens *)

Lemma words_from_tokens (s : string) :
  (∀ w, (words_from s).1 = Some w → w ≠ "" ∧ no_whitespace w = true) ∧
  Forall (fun tok => tok ≠ "" ∧ no_whitespace tok = true) (words_from s).2.
Proof.
  induction s as [|c r [IHh IHt]]; simpl.
  - split; [done|constructor].
  - destruct (words_from r) as [h t] eqn:E. simpl in *.
    destruct (is_space c) eqn:Ec; simpl.
    + split; [done|]. destruct h as [w|]; [|done].
      constructor; [by apply IHh|done].
    + split; [|done]. intros w [= <-]. split; [done|].
      simpl. rewrite Ec. simpl. destruct h as [w|]; simpl; [|done].
      by apply IHh.
Qed.

Lemma split_ws_tokens (s : string) :
  Forall (fun tok => tok ≠ "" ∧ no_whitespace tok = true) (split_ws s).
Proof.
  unfold split_ws. destruct (words_from_tokens s) as [Hh Ht].
  destruct (words_from s) as [[w|] t]; simpl in *; [|done].
  constructor; [by apply Hh|done].
Qed.

Lemma contains_space_whitespace (s : string) :
  contains " " s = true → no_whitespace s = false.
Proof.
  induction s as [|c r IH]; [done|].
  change (contains " " (String c r))
    with (String.prefix " " (String c r) || contains " " r).
  intros H. apply orb_prop in H as [H|H]; simpl.
  - destruct (is_space c) eqn:Ec; [done|].
    cbn [String.prefix] in H.
    destruct (ascii_dec " " c) as [<-|]; [|discriminate H].
    vm_compute in Ec. discriminate Ec.
  - rewrite (IH H). by rewrite andb_false_r.
Qed.

(** ** [str.split()] against its description *)

Lemma append_String (c : ascii) (r x : string) :
  String c r +:+ x = String c (r +:+ x).
Proof. reflexivity. Qed.

Lemma append_EmptyString (s : string) : s +:+ "" = s.
Proof. induction s as [|c r IH]; [done|]. by rewrite append_String, IH. Qed.

Lemma words_from_space (c : ascii) (r : string) :
  is_space c = true → words_from (String c r) = (None, split_ws r).
Proof.
  intros Hc. unfold split_ws. cbn [words_from].
  destruct (words_from r) as [h t]. by rewrite Hc.
Qed.

Lemma split_ws_space (c : ascii) (r : string) :
  is_space c = true → split_ws (String c r) = split_ws r.
Proof.
  intros Hc. unfold split_ws at 1. by rewrite words_from_space.
Qed.

Lemma split_ws_skip (s0 x : string) :
  only_whitespace s0 = true → split_ws (s0 +:+ x) = split_ws x.
Proof.
  induction s0 as [|c r IH]; [done|].
  cbn [only_whitespace]. intros [Hc Hr]%andb_prop.
  rewrite append_String, split_ws_space by done. by apply IH.
Qed.

Lemma split_ws_blank (s0 : string) :
  only_whitespace s0 = true → split_ws s0 = [].
Proof.
  induction s0 as [|c r IH]; [done|].
  cbn [only_whitespace]. intros [Hc Hr]%andb_prop.
  rewrite split_ws_space by done. by apply IH.
Qed.

Lemma words_from_word (word x : string) :
  word ≠ "" → no_whitespace word = true → word_end x = true →
  words_from (word +:+ x) = (Some word, split_ws x).
Proof.
  induction word as [|c r IH]; [done|].
  intros _. cbn [no_whitespace]. intros [Hc Hr]%andb_prop Hx.
  apply negb_true_iff in Hc.
  rewrite append_String. cbn [words_from].
  destruct r as [|c' r'].
  - change ("" +:+ x) with x. destruct x as [|d x'].
    + cbn [words_from]. by rewrite Hc.
    + cbn [word_end] in Hx. rewrite words_from_space, split_ws_space by done.
      by rewrite Hc.
  - rewrite IH by done. by rewrite Hc.
Qed.

Lemma weave_word_end (sep : string) (rest : list (string * string)) :
  only_whitespace sep = true →
  match rest with [] => true | _ :: _ => negb (String.eqb sep "") end = true →
  word_end (weave sep rest) = true.
Proof.
  intros Hsep Hne. destruct sep as [|c r].
  - by destruct rest.
  - cbn [only_whitespace] in Hsep. apply andb_prop in Hsep as [Hc _].
    destruct rest as [|[word sep'] rest']; [done|].
    cbn [weave]. by rewrite append_String.
Qed.

(** The words of a woven string are the words woven into it. *)
Lemma split_ws_weave (l : list (string * string)) (s0 : string) :
  only_whitespace s0 = true → separated l = true →
  split_ws (weave s0 l) = l.*1.
Proof.
  revert s0. induction l as [|[word sep] rest IH]; intros s0 Hs0 Hl.
  - by apply split_ws_blank.
  - cbn [separated] in Hl.
    apply andb_prop in Hl as [Hl Hrest].
    apply andb_prop in Hl as [Hl Hne].
    apply andb_prop in Hl as [Hl Hsep].
    apply andb_prop in Hl as [Hword Hnws].
    apply negb_true_iff, String.eqb_neq in Hword.
    cbn [weave]. rewrite split_ws_skip by done.
    unfold split_ws at 1.
    rewrite words_from_word by (try done; by apply weave_word_end).
    csimpl. f_equal. by apply IH.
Qed.

(** Every string is woven from words and whitespace. *)
Lemma weave_exists (s : string) :
  ∃ s0 l, only_whitespace s0 = true ∧ separated l = true ∧ s = weave s0 l.
Proof.
  induction s as [|c r (s0 & l & Hs0 & Hl & ->)].
  - by exists "", [].
  - destruct (is_space c) eqn:Hc.
    + exists (String c s0), l. split; [|split; [done|by destruct l as [|[??]?]]].
      cbn [only_whitespace]. by rewrite Hc.
    + destruct s0 as [|d s0'].
      * destruct l as [|[word sep] rest].
        -- exists "", [(String c "", "")]. split; [done|]. split; [|done].
           cbn [separated no_whitespace]. by rewrite Hc.
        -- exists "", ((String c word, sep) :: rest). split; [done|].
           split; [|done].
           cbn [separated] in Hl |- *. cbn [no_whitespace]. rewrite Hc.
           apply andb_prop in Hl as [Hl Hrest].
           apply andb_prop in Hl as [Hl Hne].
           apply andb_prop in Hl as [Hl Hsep].
           apply andb_prop in Hl as [Hword Hnws].
           by rewrite Hnws, Hsep, Hne, Hrest.
      * exists "", ((String c "", String d s0') :: l). split; [done|].
        split; [|done].
        cbn [separated no_whitespace]. rewrite Hc, Hs0, Hl.
        by destruct l.
Qed.

(** X15. The seed tokens of a path with a space are its words. When the
    executable path contains a space it is split on whitespace: written as
    words with whitespace around and between them (every path can be
    written so), the seed tokens are exactly these words, in order. So
    every seed token is a non-empty word without whitespace and the path
    itself is never one argument: a custom path under a directory with a
    space in its name is cut in two at the space. A path without a space
    is the single seed token. *)
Theorem seed_tokens_split (prettier_path : string) :
  (contains " " prettier_path = true →
     (∃ s0 l, only_whitespace s0 = true ∧ separated l = true ∧
              prettier_path = weave s0 l) ∧
     (∀ s0 l, only_whitespace s0 = true → separated l = true →
              prettier_path = weave s0 l →
              seed_tokens prettier_path = l.*1) ∧
     (∀ dir file, dir ≠ "" → file ≠ "" →
              no_whitespace dir = true → no_whitespace file = true →
              prettier_path = dir +:+ " " +:+ file →
              seed_tokens prettier_path = [dir; file]) ∧
     Forall (fun tok => tok ≠ "" ∧ no_whitespace tok = true) (seed_tokens prettier_path)
     ∧ ¬ In prettier_path (seed_tokens prettier_path)) ∧
  (contains " " prettier_path = false → seed_tokens prettier_path = [prettier_path]).
Proof.
  unfold seed_tokens. split; intros H; rewrite H; [|done].
  assert (Hweave : ∀ s0 l, only_whitespace s0 = true → separated l = true →
            prettier_path = weave s0 l → split_ws prettier_path = l.*1).
  { intros s0 l Hs0 Hl ->. by apply split_ws_weave. }
  split; [apply weave_exists|]. split; [done|]. split.
  - intros dir file Hdir Hfile Hd Hf Hpath.
    apply (Hweave "" [(dir, " "); (file, "")]); [done| |].
    + cbn [separated]. rewrite Hd, Hf.
      apply String.eqb_neq in Hdir, Hfile. by rewrite Hdir, Hfile.
    + rewrite Hpath. cbn [weave]. by rewrite append_EmptyString.
  - pose proof (split_ws_tokens prettier_path) as Htok. split; [done|].
    intros Hin. rewrite Forall_forall in Htok.
    destruct (Htok prettier_path) as [_ Hws]; [by apply list_elem_of_In|].
    by rewrite (contains_space_whitespace _ H) in Hws.
Qed.

(** * The executable discovery *)

Lemma io_bind_emit {A} (e : event) (m : io A) :
  (emit e ;; m) = (m.1, e :: m.2).
Proof.
  unfold mbind, io_mbind, io_bind, emit. by destruct m.
Qed.

Lemma find_bundled_spec (w : world) (names : list string) :
  (Forall (fun name => is_file w (tools_path w name) = false) names ∧
   find_bundled w names = (Ok None, []))
  ∨ (∃ l1 name l2,
       names = l1 ++ name :: l2 ∧
       Forall (fun name => is_file w (tools_path w name) = false) l1 ∧
       is_file w (tools_path w name) = true ∧
       find_bundled w names
       = (Ok (Some (tools_path w name)),
          [Print ("Prettier: Using bundled version: " +:+ tools_path w name)])).
Proof.
  induction names as [|name names IH]; simpl.
  - left. by split.
  - destruct (is_file w (tools_path w name)) eqn:E.
    + right. exists [], name, names. by repeat split.
    + destruct IH as [[Hall ->]|(l1 & n & l2 & -> & Hall & Hn & ->)].
      * left. split; [by constructor|done].
      * right. exists (name :: l1), n, l2. repeat split; try done.
        by constructor.
Qed.

Lemma find_package_manager_spec (w : world) (l : list string) :
  (Forall (fun c => probe_ok w c = false) l ∧
   find_package_manager w l = (Ok None, probe_event <$> l))
  ∨ (∃ l1 c l2,
       l = l1 ++ c :: l2 ∧
       Forall (fun c => probe_ok w c = false) l1 ∧
       probe_ok w c = true ∧
       find_package_manager w l
       = (Ok (Some c),
          (probe_event <$> l1)
          ++ [probe_event c; Print ("Prettier: Using package manager: " +:+ c)])).
Proof.
  induction l as [|c l IH].
  - left. by split.
  - cbn [find_package_manager]. rewrite io_bind_emit.
    destruct (probe_ok w c) eqn:Hc.
    + right. exists [], c, l. repeat split; try done.
      unfold probe_ok in Hc.
      destruct (probe w (split_ws c ++ ["--version"])) as [[|?|?]|];
        try discriminate.
      by rewrite io_bind_emit.
    + assert (Hrest : match probe w (split_ws c ++ ["--version"]) with
                      | Some 0 =>
                          emit (Print ("Prettier: Using package manager: " +:+ c));;
                          mret (Some c)
                      | _ => find_package_manager w l
                      end = find_package_manager w l).
      { unfold probe_ok in Hc.
        by destruct (probe w (split_ws c ++ ["--version"])) as [[|?|?]|]. }
      rewrite Hrest.
      destruct IH as [[Hall ->]|(l1 & c' & l2 & -> & Hall & Hc' & ->)].
      * left. split; [by constructor|done].
      * right. exists (c :: l1), c', l2. repeat split; try done.
        by constructor.
Qed.

Lemma find_bundled_miss (w : world) (names : list string) :
  Forall (fun name => is_file w (tools_path w name) = false) names →
  find_bundled w names = (Ok None, []).
Proof.
  induction 1 as [|name names Hn _ IH]; [done|].
  cbn [find_bundled]. by rewrite Hn.
Qed.

Lemma find_bundled_hit (w : world) (l1 l2 : list string) (name : string) :
  Forall (fun name => is_file w (tools_path w name) = false) l1 →
  is_file w (tools_path w name) = true →
  find_bundled w (l1 ++ name :: l2)
  = (Ok (Some (tools_path w name)),
     [Print ("Prettier: Using bundled version: " +:+ tools_path w name)]).
Proof.
  intros Hl1 Hn. induction Hl1 as [|n l1 Hf _ IH]; cbn [find_bundled app].
  - by rewrite Hn.
  - by rewrite Hf.
Qed.

Lemma find_package_manager_miss (w : world) (l : list string) :
  Forall (fun c => probe_ok w c = false) l →
  find_package_manager w l = (Ok None, probe_event <$> l).
Proof.
  intros H. destruct (find_package_manager_spec w l)
    as [[_ ->]|(l1 & c & l2 & -> & _ & Hc & _)]; [done|].
  apply Forall_app in H as [_ H]. apply Forall_cons in H as [H _]. congruence.
Qed.

Lemma find_package_manager_hit (w : world) (l1 l2 : list string) (c : string) :
  Forall (fun c => probe_ok w c = false) l1 →
  probe_ok w c = true →
  find_package_manager w (l1 ++ c :: l2)
  = (Ok (Some c),
     (probe_event <$> l1)
     ++ [probe_event c; Print ("Prettier: Using package manager: " +:+ c)]).
Proof.
  intros Hl1 Hc. induction Hl1 as [|n l1 Hf _ IH];
    cbn [find_package_manager app]; rewrite io_bind_emit.
  - unfold probe_ok in Hc.
    destruct (probe w (split_ws c ++ ["--version"])) as [[|?|?]|]; try discriminate.
    by rewrite io_bind_emit.
  - unfold probe_ok in Hf.
    destruct (probe w (split_ws n ++ ["--version"])) as [[|?|?]|]; try discriminate;
      by rewrite IH.
Qed.

(** The discovery for a configuration whose [prettier_path] is a string
    (or absent), written with the lists and tests named above. *)
Lemma find_prettier_executable_string
    (w : world) (config : gmap string json) (s : string) :
  default (JStr "") (config !! "prettier_path") = JStr s →
  find_prettier_executable w config
  = if custom_usable w config then
      (Ok (Some (strip s)), [Print ("Prettier: Using custom path: " +:+ strip s)])
    else
      bundled ← find_bundled w (bundled_names w);
      match bundled with
      | Some p => mret (Some p)
      | None =>
          if is_file w (local_prettier w) then
            (Ok (Some (local_prettier w)),
             [Print ("Prettier: Using local project installation: "
                     +:+ local_prettier w)])
          else
            pm ← find_package_manager w (package_managers w);
            match pm with
            | Some c => mret (Some c)
            | None =>
                match which_found w with
                | Some path =>
                    (Ok (Some path), [Print ("Prettier: Found in PATH: " +:+ path)])
                | None =>
                    (Ok None,
                     [Print "NOTE: Prettier not found - install via npm/yarn/pnpm or configure path"])
                end
            end
      end.
Proof.
  intros Hs. unfold find_prettier_executable, custom_usable.
  rewrite Hs. cbn [py_strip]. rewrite io_bind_lift_Ok.
  destruct (negb (String.eqb (strip s) "") && path_exists w (strip s)); [done|].
  unfold bundled_names, local_prettier, package_managers, which_found.
  f_equal.
  destruct (which_prettier w) as [p|]; [|done].
  by destruct (String.eqb p "").
Qed.

Lemma io_bind_pair {A B} (a : A) (t : list event) (f : A → io B) :
  (((Ok a, t) : io A) ≫= f) = ((f a).1, t ++ (f a).2).
Proof.
  unfold mbind, io_mbind, io_bind. by destruct (f a).
Qed.

(** X6. The priority chain of the discovery. For a [prettier_path] that is
    a string (or absent), each tier wins over all later ones: a usable
    custom path; else the first bundled file; else the local project
    file; else the first package manager executor whose probe returns 0;
    else the search path; else nothing. The file tiers print one line and
    probe nothing; a package manager tier has probed the executors before
    the winner, in order; the last two tiers have probed all of them. *)
Theorem find_prettier_executable_priority
    (w : world) (config : gmap string json) (s : string) :
  default (JStr "") (config !! "prettier_path") = JStr s →
  let found := find_prettier_executable w config in
  let no_bundled :=
    Forall (fun name => is_file w (tools_path w name) = false) (bundled_names w) in
  let no_executor :=
    Forall (fun c => probe_ok w c = false) (package_managers w) in
  (custom_usable w config = true →
     found = (Ok (Some (strip s)),
              [Print ("Prettier: Using custom path: " +:+ strip s)])) ∧
  (custom_usable w config = false →
     (∀ l1 name l2,
        bundled_names w = l1 ++ name :: l2 →
        Forall (fun name => is_file w (tools_path w name) = false) l1 →
        is_file w (tools_path w name) = true →
        found = (Ok (Some (tools_path w name)),
                 [Print ("Prettier: Using bundled version: " +:+ tools_path w name)])) ∧
     (no_bundled → is_file w (local_prettier w) = true →
        found = (Ok (Some (local_prettier w)),
                 [Print ("Prettier: Using local project installation: "
                         +:+ local_prettier w)])) ∧
     (no_bundled → is_file w (local_prettier w) = false →
        (∀ l1 c l2,
           package_managers w = l1 ++ c :: l2 →
           Forall (fun c => probe_ok w c = false) l1 →
           probe_ok w c = true →
           found = (Ok (Some c),
                    (probe_event <$> l1)
                    ++ [probe_event c;
                        Print ("Prettier: Using package manager: " +:+ c)])) ∧
        (no_executor → ∀ path, which_found w = Some path →
           found = (Ok (Some path),
                    (probe_event <$> package_managers w)
                    ++ [Print ("Prettier: Found in PATH: " +:+ path)])) ∧
        (no_executor → which_found w = None →
           found = (Ok None,
                    (probe_event <$> package_managers w)
                    ++ [Print "NOTE: Prettier not found - install via npm/yarn/pnpm or configure path"])))).
Proof.
  intros Hs found no_bundled no_executor. unfold found.
  rewrite (find_prettier_executable_string w config s Hs).
  split; [by intros ->|]. intros ->. split; [|split].
  - intros l1 name l2 Hnames Hl1 Hname.
    by rewrite Hnames, (find_bundled_hit w l1 l2 name Hl1 Hname), io_bind_pair.
  - intros Hnb Hlocal.
    by rewrite (find_bundled_miss w _ Hnb), io_bind_pair, Hlocal.
  - intros Hnb Hlocal.
    rewrite (find_bundled_miss w _ Hnb), io_bind_pair, Hlocal. cbn [fst snd app].
    split; [|split].
    + intros l1 c l2 Hpm Hl1 Hc.
      rewrite Hpm, (find_package_manager_hit w l1 l2 c Hl1 Hc), io_bind_pair.
      cbn [fst snd mret io_mret io_ret]. by rewrite app_nil_r.
    + intros Hne path Hwhich.
      by rewrite (find_package_manager_miss w _ Hne), io_bind_pair, Hwhich.
    + intros Hne Hwhich.
      by rewrite (find_package_manager_miss w _ Hne), io_bind_pair, Hwhich.
Qed.

Lemma find_prettier_executable_not_string
    (w : world) (config : gmap string json) :
  (∀ s, default (JStr "") (config !! "prettier_path") ≠ JStr s) →
  find_prettier_executable w config = (Raise AttributeError, []).
Proof.
  intros Hv. unfold find_prettier_executable.
  destruct (default (JStr "") (config !! "prettier_path")); try done.
  by destruct (Hv s).
Qed.

Lemma custom_usable_true (w : world) (config : gmap string json) :
  custom_usable w config = true →
  ∃ s, config !! "prettier_path" = Some (JStr s) ∧
       strip s ≠ "" ∧ path_exists w (strip s) = true.
Proof.
  unfold custom_usable. destruct (config !! "prettier_path") as [v|] eqn:E; simpl.
  - destruct v; try discriminate. intros H. apply andb_prop in H as [H1 H2].
    exists s. split; [done|]. split; [|done].
    apply String.eqb_neq. by destruct (String.eqb (strip s) "").
  - discriminate.
Qed.

Lemma which_found_Some (w : world) (p : string) :
  which_found w = Some p → which_prettier w = Some p ∧ p ≠ "".
Proof.
  unfold which_found. destruct (which_prettier w) as [q|]; [|done].
  destruct (String.eqb_spec q ""); [done|]. by intros [= <-].
Qed.

(** X7. The discovery returns only what it has checked. A path that
    [find_prettier_executable] returns is the trimmed custom path, which
    is not empty and exists; or a bundled or local file that is a regular
    file; or a package manager executor whose probe returned 0; or the
    non-empty result of the search path lookup. *)
Theorem find_prettier_executable_sound
    (w : world) (config : gmap string json) (p : string) (t : list event) :
  find_prettier_executable w config = (Ok (Some p), t) →
  (∃ s, config !! "prettier_path" = Some (JStr s) ∧ p = strip s ∧
        p ≠ "" ∧ path_exists w p = true)
  ∨ (∃ name, In name (bundled_names w) ∧ p = tools_path w name ∧ is_file w p = true)
  ∨ (p = local_prettier w ∧ is_file w p = true)
  ∨ (In p (package_managers w) ∧ probe_ok w p = true)
  ∨ (which_prettier w = Some p ∧ p ≠ "").
Proof.
  intros Hfind.
  destruct (default (JStr "") (config !! "prettier_path")) as [| | | |s| |] eqn:Hs;
    try (rewrite find_prettier_executable_not_string in Hfind
           by (rewrite Hs; discriminate); discriminate).
  rewrite (find_prettier_executable_string w config s Hs) in Hfind.
  destruct (custom_usable w config) eqn:Hc.
  { injection Hfind as <- <-. left.
    destruct (custom_usable_true w config Hc) as (s' & Hs' & Hne & Hex).
    rewrite Hs' in Hs. injection Hs as ->. by exists s. }
  right.
  destruct (find_bundled_spec w (bundled_names w))
    as [[Hnb Hb]|(l1 & name & l2 & Hnames & _ & Hname & Hb)];
    rewrite Hb, io_bind_pair in Hfind.
  2:{ injection Hfind as <- <-. left. exists name. split; [|done].
      rewrite Hnames. apply in_or_app. right. by left. }
  right. destruct (is_file w (local_prettier w)) eqn:Hlocal.
  { injection Hfind as <- <-. by left. }
  right.
  destruct (find_package_manager_spec w (package_managers w))
    as [[Hne Hpm]|(l1 & c & l2 & Hpms & _ & Hc' & Hpm)];
    rewrite Hpm, io_bind_pair in Hfind.
  2:{ injection Hfind as <- <-. left. split; [|done].
      rewrite Hpms. apply in_or_app. right. by left. }
  right. destruct (which_found w) as [path|] eqn:Hw; [|discriminate].
  injection Hfind as <- <-. by apply which_found_Some.
Qed.

(** X8. Nothing found means every tier missed. For a [prettier_path] that
    is a string (or absent), the discovery returns [None] exactly when the
    custom path cannot be used, no bundled and no local file exists, no
    package manager probe returns 0 and the search path has nothing. *)
Theorem find_prettier_executable_none
    (w : world) (config : gmap string json) (s : string) :
  default (JStr "") (config !! "prettier_path") = JStr s →
  ((find_prettier_executable w config).1 = Ok None ↔
   custom_usable w config = false ∧
   Forall (fun name => is_file w (tools_path w name) = false) (bundled_names w) ∧
   is_file w (local_prettier w) = false ∧
   Forall (fun c => probe_ok w c = false) (package_managers w) ∧
   which_found w = None).
Proof.
  intros Hs. rewrite (find_prettier_executable_string w config s Hs). split.
  - destruct (custom_usable w config); [discriminate|].
    destruct (find_bundled_spec w (bundled_names w))
      as [[Hnb Hb]|(l1 & name & l2 & _ & _ & _ & Hb)];
      rewrite Hb, io_bind_pair; [|discriminate].
    destruct (is_file w (local_prettier w)); [discriminate|].
    destruct (find_package_manager_spec w (package_managers w))
      as [[Hne Hpm]|(l1 & c & l2 & _ & _ & _ & Hpm)];
      rewrite Hpm, io_bind_pair; [|discriminate].
    by destruct (which_found w).
  - intros (-> & Hnb & Hlocal & Hne & Hw).
    by rewrite (find_bundled_miss w _ Hnb), io_bind_pair, Hlocal,
      (find_package_manager_miss w _ Hne), io_bind_pair, Hw.
Qed.

(** X9. A file hit runs no subprocess. When the custom path can be used, or
    a bundled or the local file exists, the discovery probes no package
    manager: its trace has no [Probe]. *)
Theorem find_prettier_executable_no_probe
    (w : world) (config : gmap string json) (s : string) :
  default (JStr "") (config !! "prettier_path") = JStr s →
  custom_usable w config = true
  ∨ Exists (fun name => is_file w (tools_path w name) = true) (bundled_names w)
  ∨ is_file w (local_prettier w) = true →
  Forall (fun e => is_probe e = false) (find_prettier_executable w config).2.
Proof.
  intros Hs Hfile. rewrite (find_prettier_executable_string w config s Hs).
  destruct (custom_usable w config) eqn:Hc; [by repeat constructor|].
  destruct (find_bundled_spec w (bundled_names w))
    as [[Hnb Hb]|(l1 & name & l2 & _ & _ & _ & Hb)];
    rewrite Hb, io_bind_pair; [|by repeat constructor].
  destruct (is_file w (local_prettier w)) eqn:Hlocal; [by repeat constructor|].
  destruct Hfile as [?|[Hex|?]]; try discriminate.
  apply Exists_exists in Hex as (name & Hin & Hname).
  rewrite Forall_forall in Hnb. by rewrite (Hnb name Hin) in Hname.
Qed.

(** * More on the configuration *)

(** X5. [_filter_comments] on any object. On a dict it returns the dict
    without the keys that begin with [//], every other key with its value,
    and filtering the result again changes nothing; on anything that is
    not a dict it raises [AttributeError]. *)
Theorem _filter_comments_spec (v : json) :
  (∀ d, v = JDict d →
     ∃ c, _filter_comments v = Ok c ∧
          (∀ k, c !! k = if is_comment_key k then None else d !! k) ∧
          _filter_comments (JDict c) = Ok c) ∧
  ((∀ d, v ≠ JDict d) → _filter_comments v = Raise AttributeError).
Proof.
  split.
  - intros d ->. exists (filter_comment_keys d). split; [done|].
    split; [apply filter_comment_keys_lookup|].
    simpl. f_equal. apply map_eq; intros k.
    rewrite !filter_comment_keys_lookup. by destruct (is_comment_key k).
  - intros Hv. destruct v; try done. by destruct (Hv d).
Qed.

(** X2. User values over defaults. For a configuration file that is a JSON
    object whose options block is absent or an object, the loaded
    configuration holds, at the top level, every user key that is not a
    comment with the user's value and every other default; in the options
    block, every user option that is not a comment with the user's value
    (unknown options included) and every other default option. Nothing is
    printed. *)
Theorem load_config_overrides
    (w : world) (path : string) (u o : gmap string json) :
  get_config_path w = Some path →
  path_exists w path = true →
  read_config w path = Parsed (JDict u) →
  default (JDict ∅) (u !! "prettier_options") = JDict o →
  ∃ config options,
    load_config w = (Ok config, []) ∧
    config !! "prettier_options" = Some (JDict options) ∧
    (∀ k, k ≠ "prettier_options" → is_comment_key k = false →
       config !! k = match u !! k with
                     | Some v => Some v
                     | None => DEFAULT_CONFIG !! k
                     end) ∧
    (∀ k, is_comment_key k = false →
       options !! k = match o !! k with
                      | Some v => Some v
                      | None => DEFAULT_OPTIONS !! k
                      end).
Proof.
  intros Hp He Hr Ho.
  assert (Hm : ∃ t, t !! "prettier_options" = None ∧
                    (∀ k, k ≠ "prettier_options" → t !! k = u !! k) ∧
                    merge_user_config (JDict u) = Ok (merged_shape t o)).
  { destruct (u !! "prettier_options") as [v|] eqn:Hu; simpl in Ho.
    - subst v. exists (delete "prettier_options" u).
      split; [apply lookup_delete_eq|].
      split; [intros k Hk; by apply lookup_delete_ne|].
      by apply merge_user_config_block.
    - injection Ho as <-. exists u. split; [done|]. split; [done|].
      by apply merge_user_config_no_block. }
  destruct Hm as (t & Ht & Htu & Hm).
  exists (merged_shape t o), (filter_comment_keys o ∪ DEFAULT_OPTIONS).
  split; [by apply (load_config_parsed w path (JDict u))|].
  split; [by apply merged_shape_options|]. split.
  - intros k Hk Hc. by rewrite merged_shape_lookup_ne, Hc, Htu.
  - intros k Hc. rewrite lookup_union, filter_comment_keys_lookup, Hc.
    by destruct (o !! k), (DEFAULT_OPTIONS !! k).
Qed.

(** X3. An unusable file is never applied in part. When the configuration
    file is missing, cannot be read, is not JSON, is not a JSON object, or
    has an options block that is not an object, [load_config] returns
    exactly the defaults: no key of the file is applied, not even a valid
    top-level one. *)
Theorem load_config_falls_back
    (w : world) (path : string) :
  get_config_path w = Some path →
  path_exists w path = false
  ∨ read_config w path = DecodeError
  ∨ (∃ e, read_config w path = ReadError e)
  ∨ (∃ u, read_config w path = Parsed u ∧ ∀ d, u ≠ JDict d)
  ∨ (∃ d v, read_config w path = Parsed (JDict d) ∧
            d !! "prettier_options" = Some v ∧ ∀ o, v ≠ JDict o) →
  (load_config w).1 = Ok (filter_comment_keys DEFAULT_CONFIG).
Proof.
  intros Hp Hcase. unfold load_config. rewrite Hp.
  destruct Hcase as [He|Hcase].
  { rewrite He. simpl negb. cbv iota. by destruct (create_config w path). }
  destruct (path_exists w path).
  2:{ simpl negb. cbv iota. by destruct (create_config w path). }
  simpl negb. cbv iota.
  destruct Hcase as [->|[[e ->]|[(u & -> & Hu)|(d & v & -> & Hd & Hv)]]]; try done.
  - by destruct (merge_user_config_not_dict u Hu) as [e ->].
  - by rewrite (merge_user_config_bad_block d v Hd Hv).
Qed.

(** X4. The default file is written only when there is none. The trace of
    [load_config] has the write of the default configuration file exactly
    when the file does not exist and its creation succeeds; an existing
    file is never written. *)
Theorem load_config_writes_only_missing_file (w : world) (p : string) :
  In (WriteDefaultConfig p) (load_config w).2 ↔
  get_config_path w = Some p ∧ path_exists w p = false ∧ create_config w p = None.
Proof.
  unfold load_config. destruct (get_config_path w) as [path|].
  2:{ simpl. split; [done|by intros [? _]]. }
  destruct (path_exists w path) eqn:He; simpl negb; cbv iota.
  - split.
    + intros H. exfalso.
      destruct (read_config w path) as [u| |e]; [destruct (merge_user_config u)| |];
        simpl in H; repeat (destruct H as [H|H]; [discriminate H|]); destruct H.
    + intros ([= ->] & Hne & _). congruence.
  - destruct (create_config w path) as [e|] eqn:Hc; simpl.
    + split.
      * intros H. repeat (destruct H as [H|H]; [discriminate H|]). destruct H.
      * intros ([= ->] & _ & ?). congruence.
    + split.
      * intros [H|H]; [by injection H as ->|].
        repeat (destruct H as [H|H]; [discriminate H|]). destruct H.
      * intros ([= ->] & _). by left.
Qed.

(** * More on the format entry point *)

Lemma io_bind_lift_Raise {A B} (e : exn) (f : A → io B) :
  (lift (Raise e : result A) ≫= f) = (Raise e, []).
Proof. unfold mbind, io_mbind, io_bind, lift. reflexivity. Qed.

Lemma io_bind_outcome {A B} (m : io A) (f : A → io B) :
  (m ≫= f) = match m.1 with
             | Ok a => ((f a).1, m.2 ++ (f a).2)
             | Raise e => (Raise e, m.2)
             end.
Proof.
  unfold mbind, io_mbind, io_bind. destruct m as [[a|e] t]; [|done].
  cbn [fst snd]. by destruct (f a).
Qed.

Lemma load_config_no_spawn (w : world) :
  Forall (fun e => is_spawn e = false) (load_config w).2.
Proof.
  unfold load_config. destruct (get_config_path w) as [p|]; [|constructor].
  destruct (path_exists w p); simpl negb; cbv iota.
  - destruct (read_config w p) as [u| |e]; [destruct (merge_user_config u)| |];
      by repeat constructor.
  - destruct (create_config w p); by repeat constructor.
Qed.

Lemma find_prettier_executable_no_spawn (w : world) (config : gmap string json) :
  Forall (fun e => is_spawn e = false) (find_prettier_executable w config).2.
Proof.
  destruct (default (JStr "") (config !! "prettier_path")) as [| | | |s| |] eqn:Hs;
    try (rewrite find_prettier_executable_not_string
           by (rewrite Hs; discriminate); constructor).
  rewrite (find_prettier_executable_string w config s Hs).
  destruct (custom_usable w config); [by repeat constructor|].
  destruct (find_bundled_spec w (bundled_names w))
    as [[_ Hb]|(l1 & name & l2 & _ & _ & _ & Hb)];
    rewrite Hb, io_bind_pair; [|by repeat constructor].
  destruct (is_file w (local_prettier w)); [by repeat constructor|].
  assert (Hprobes : ∀ l, Forall (fun e => is_spawn e = false) (probe_event <$> l)).
  { intros l. apply Forall_fmap. by apply Forall_true. }
  destruct (find_package_manager_spec w (package_managers w))
    as [[_ Hpm]|(l1 & c & l2 & _ & _ & _ & Hpm)];
    rewrite Hpm, io_bind_pair; cbn [fst snd app].
  - apply Forall_app. split; [apply Hprobes|].
    destruct (which_found w); by repeat constructor.
  - apply Forall_app. split; [|constructor].
    apply Forall_app. split; [apply Hprobes|by repeat constructor].
Qed.

Lemma print_and_return_no_spawn (l : list json) :
  Forall (fun e => is_spawn e = false) (print_and_return l).2.
Proof.
  unfold print_and_return. destruct (as_strings l); by repeat constructor.
Qed.

Lemma build_prettier_command_no_spawn
    (repr_other : json → string) (prettier_path parser : string)
    (config : gmap string json) :
  Forall (fun e => is_spawn e = false)
    (build_prettier_command repr_other prettier_path parser config).2.
Proof.
  unfold build_prettier_command.
  destruct (truthy _); [apply print_and_return_no_spawn|].
  destruct (inline_options _ _ _) as [c|e]; [|constructor].
  rewrite io_bind_lift_Ok.
  destruct (range_options _ _ _) as [c'|e]; [|constructor].
  rewrite io_bind_lift_Ok. apply print_and_return_no_spawn.
Qed.

Lemma checked_timeout_no_spawn
    (repr_other : json → string) (config : gmap string json) :
  Forall (fun e => is_spawn e = false) (checked_timeout repr_other config).2.
Proof.
  unfold checked_timeout. destruct (_ || _); by repeat constructor.
Qed.

(** The invoker spawns exactly one process, first. *)
Lemma run_prettier_trace
    (repr_other : json → string) (w : world) (cmd : list string) (text : string)
    (timeout : json) :
  ∃ r t,
    run_prettier repr_other w cmd text timeout
    = (Ok r, Spawn cmd text (working_dir w) timeout :: t) ∧
    Forall (fun e => is_spawn e = false) t.
Proof.
  unfold run_prettier. rewrite io_bind_emit.
  destruct (run_process w cmd text (working_dir w) timeout) as [[[rc out] err]|e].
  - unfold on_completion. destruct (negb (rc =? 0)).
    + destruct (contains _ _ || contains _ _); eexists _, _;
        (split; [reflexivity|by repeat constructor]).
    + destruct (String.eqb out ""); eexists _, _;
        (split; [reflexivity|by repeat constructor]).
  - destruct e; eexists _, _; (split; [reflexivity|by repeat constructor]).
Qed.

Lemma run_prettier_output_iff
    (repr_other : json → string) (w : world) (cmd : list string) (text : string)
    (timeout : json) :
  ∃ r,
    (run_prettier repr_other w cmd text timeout).1 = Ok r ∧
    ∀ out,
      r = Some out ↔
      out ≠ "" ∧
      ∃ stderr, run_process w cmd text (working_dir w) timeout = Ok (0, out, stderr).
Proof.
  unfold run_prettier. rewrite io_bind_emit. cbn [fst].
  destruct (run_process w cmd text (working_dir w) timeout) as [[[rc out] err]|e].
  - unfold on_completion. destruct (Z.eqb_spec rc 0) as [->|Hrc]; simpl negb; cbv iota.
    + destruct (String.eqb_spec out "") as [->|Hout].
      * exists None. split; [done|]. intros o. split; [done|].
        intros (Ho & err' & [= <-]). done.
      * exists (Some out). split; [done|]. intros o. split.
        -- intros [= <-]. eauto.
        -- by intros (_ & err' & [= <-]).
    + exists None. split.
      * by destruct (contains _ _ || contains _ _).
      * intros o. split; [done|]. intros (_ & err' & [= ? _]). done.
  - exists None. split; [by destruct e|].
    intros o. split; [done|]. by intros (_ & err' & ?).
Qed.

(** X17. What the invoker returns. The invoker never raises; it returns a
    text exactly when the process ran to completion with exit status 0
    and a non-empty standard output, and the text is that output,
    unchanged. A time-out, a missing executable and any other exception
    of the process give [None]. *)
Theorem run_prettier_returns_output
    (repr_other : json → string) (w : world) (cmd : list string) (text : string)
    (timeout : json) :
  ∃ r,
    (run_prettier repr_other w cmd text timeout).1 = Ok r ∧
    ∀ out,
      r = Some out ↔
      out ≠ "" ∧
      ∃ stderr, run_process w cmd text (working_dir w) timeout = Ok (0, out, stderr).
Proof. exact (run_prettier_output_iff repr_other w cmd text timeout). Qed.

(** The two ways of [do_format] on a text that is not blank: it stops
    before the invoker, with [None] or an exception and without a spawn;
    or it hands over to the invoker. *)
Lemma do_format_cases
    (repr_other : json → string) (w : world) (text lexer : string) :
  only_whitespace text = false →
  (∃ r t,
     do_format repr_other w text lexer = (r, t) ∧
     (∀ out, r ≠ Ok (Some out)) ∧
     Forall (fun e => is_spawn e = false) t)
  ∨ (∃ cmd timeout t0,
       Forall (fun e => is_spawn e = false) t0 ∧
       do_format repr_other w text lexer
       = ((run_prettier repr_other w cmd text timeout).1,
          t0 ++ (run_prettier repr_other w cmd text timeout).2)).
Proof.
  intros Htext. unfold do_format. rewrite blank_guard, Htext.
  fold (effective_lexer w lexer).
  destruct (LEXER_TO_PARSER !! effective_lexer w lexer) as [parser|].
  2:{ left. eexists _, _. split; [reflexivity|]. split; [done|by repeat constructor]. }
  destruct (String.eqb parser "").
  { left. eexists _, _. split; [reflexivity|]. split; [done|by repeat constructor]. }
  pose proof (load_config_no_spawn w) as Ht1.
  destruct (load_config_outcome w) as (config & t1 & _ & _ & Hw & _).
  rewrite io_bind_outcome, Hw in *. cbn [fst snd] in *.
  pose proof (find_prettier_executable_no_spawn w config) as Ht2.
  rewrite io_bind_outcome.
  destruct (find_prettier_executable w config) as [[[p|]|e] t2]; cbn [fst snd] in *.
  3:{ left. eexists _, _. split; [reflexivity|]. split; [done|].
      apply Forall_app. by split. }
  2:{ left. eexists _, _. split; [reflexivity|]. split; [done|].
      rewrite app_nil_r. apply Forall_app. by split. }
  destruct (String.eqb p "").
  { left. eexists _, _. split; [reflexivity|]. split; [done|].
    rewrite app_nil_r. apply Forall_app. by split. }
  pose proof (build_prettier_command_no_spawn repr_other p parser config) as Ht3.
  rewrite io_bind_outcome.
  destruct (build_prettier_command repr_other p parser config) as [[cmd|e] t3];
    cbn [fst snd] in *.
  2:{ left. eexists _, _. split; [reflexivity|]. split; [done|].
      repeat (apply Forall_app; split); done. }
  pose proof (checked_timeout_no_spawn repr_other config) as Ht4.
  destruct (checked_timeout_total repr_other config) as (timeout & t4 & Hto).
  rewrite io_bind_emit, io_bind_outcome, Hto in *. cbn [fst snd] in *.
  right. exists cmd, timeout,
    (t1 ++ t2 ++ t3 ++ Print ("Prettier: Formatting with parser: " +:+ parser) :: t4).
  split.
  - repeat (apply Forall_app; split); try done. by constructor.
  - f_equal. by rewrite <- !(assoc_L (++)).
Qed.

(** X19. At most one process per request. Whatever the world, the text and
    the lexer, the trace of [do_format] has at most one spawn of a
    formatting process. *)
Theorem do_format_spawns_at_most_once
    (repr_other : json → string) (w : world) (text lexer : string) :
  (length (List.filter is_spawn (do_format repr_other w text lexer).2) ≤ 1)%nat.
Proof.
  assert (Hnone : ∀ t, Forall (fun e => is_spawn e = false) t →
                       List.filter is_spawn t = []).
  { induction 1 as [|e t He _ IH]; [done|]. simpl. by rewrite He. }
  destruct (only_whitespace text) eqn:Htext.
  { unfold do_format. rewrite blank_guard, Htext. simpl. lia. }
  destruct (do_format_cases repr_other w text lexer Htext)
    as [(r & t & -> & _ & Ht)|(cmd & timeout & t0 & Ht0 & ->)]; cbn [snd].
  - rewrite (Hnone t Ht). simpl. lia.
  - destruct (run_prettier_trace repr_other w cmd text timeout)
      as (r & t & -> & Ht). cbn [snd].
    rewrite List.filter_app, (Hnone t0 Ht0). simpl. rewrite (Hnone t Ht).
    simpl. lia.
Qed.

(** X20. A returned text is the output of a successful run. When
    [do_format] returns a text for an input that is not blank, then that
    text is not empty and a process was spawned on the input text that
    ended with exit status 0 and wrote exactly that text to its standard
    output. *)
Theorem do_format_success_sound
    (repr_other : json → string) (w : world) (text lexer out : string)
    (t : list event) :
  only_whitespace text = false →
  do_format repr_other w text lexer = (Ok (Some out), t) →
  out ≠ "" ∧
  ∃ cmd timeout stderr,
    In (Spawn cmd text (working_dir w) timeout) t ∧
    run_process w cmd text (working_dir w) timeout = Ok (0, out, stderr).
Proof.
  intros Htext Hfmt.
  destruct (do_format_cases repr_other w text lexer Htext)
    as [(r & t' & Hd & Hr & _)|(cmd & timeout & t0 & _ & Hd)];
    rewrite Hd in Hfmt.
  - injection Hfmt as -> _. by destruct (Hr out).
  - injection Hfmt as Hres <-.
    destruct (run_prettier_output_iff repr_other w cmd text timeout)
      as (r & Hr & Hiff).
    rewrite Hr in Hres. injection Hres as ->.
    destruct (proj1 (Hiff out) eq_refl) as (Hne & stderr & Hrun).
    split; [done|]. exists cmd, timeout, stderr. split; [|done].
    destruct (run_prettier_trace repr_other w cmd text timeout)
      as (r' & t' & -> & _).
    apply in_or_app. right. by left.
Qed.

(** X21. The lexer falls back to the editor's. Calling [do_format] with an
    empty lexer name is calling it with the lexer of the current
    document. *)
Theorem do_format_default_lexer
    (repr_other : json → string) (w : world) (text : string) :
  do_format repr_other w text "" = do_format repr_other w text (ed_lexer w).
Proof.
  unfold do_format. destruct (_ || _); [done|].
  simpl String.eqb at 1. cbv iota.
  by destruct (String.eqb (ed_lexer w) "") eqn:E; [apply String.eqb_eq in E; rewrite E|].
Qed.

(** [do_format] once the configuration is loaded. *)
Lemma do_format_after_load
    (repr_other : json → string) (w : world) (text lexer parser : string)
    (config : gmap string json) (t1 : list event) :
  only_whitespace text = false →
  LEXER_TO_PARSER !! effective_lexer w lexer = Some parser →
  load_config w = (Ok config, t1) →
  let rest : io (option string) :=
    found ← find_prettier_executable w config;
    match found with
    | Some prettier_path =>
        if String.eqb prettier_path "" then mret None
        else
          cmd ← build_prettier_command repr_other prettier_path parser config;
          emit (Print ("Prettier: Formatting with parser: " +:+ parser));;
          timeout ← checked_timeout repr_other config;
          run_prettier repr_other w cmd text timeout
    | None => mret None
    end in
  do_format repr_other w text lexer = (rest.1, t1 ++ rest.2).
Proof.
  intros Htext Hparser Hload rest. unfold do_format.
  rewrite blank_guard, Htext. fold (effective_lexer w lexer).
  rewrite Hparser, (LEXER_TO_PARSER_nonempty _ _ Hparser).
  rewrite (io_bind_outcome (load_config w)), Hload. by cbn [fst snd].
Qed.

(** X22. Ill-typed values make the format request raise. For a text that is
    not blank and a supported language: a loaded configuration whose
    [prettier_path] is not a string makes [do_format] raise
    [AttributeError] right after the configuration is loaded; and with
    inline options, an executable found and a string-valued option that
    does not hold a string, [do_format] raises [TypeError] before any
    command is printed. In both cases no process is spawned and the
    exception is not turned into [None]. *)
Theorem do_format_raises_on_ill_typed_config
    (repr_other : json → string) (w : world) (text lexer parser : string)
    (config : gmap string json) (t1 : list event) :
  only_whitespace text = false →
  LEXER_TO_PARSER !! effective_lexer w lexer = Some parser →
  load_config w = (Ok config, t1) →
  (∀ v, config !! "prettier_path" = Some v → (∀ s, v ≠ JStr s) →
     do_format repr_other w text lexer = (Raise AttributeError, t1)) ∧
  (∀ p t2 d,
     find_prettier_executable w config = (Ok (Some p), t2) → p ≠ "" →
     truthy (default (JBool true) (config !! "use_prettier_config_file")) = false →
     default (JDict ∅) (config !! "prettier_options") = JDict d →
     string_options_ok d = false →
     do_format repr_other w text lexer = (Raise TypeError, t1 ++ t2)).
Proof.
  intros Htext Hparser Hload.
  rewrite (do_format_after_load repr_other w text lexer parser config t1
             Htext Hparser Hload).
  split.
  - intros v Hv Hbad.
    rewrite find_prettier_executable_not_string by (rewrite Hv; exact Hbad).
    rewrite io_bind_outcome. cbn [fst snd]. by rewrite app_nil_r.
  - intros p t2 d Hfind Hp Hflag Hopts Hbad.
    apply String.eqb_neq in Hp.
    rewrite io_bind_outcome, Hfind. cbn [fst snd]. rewrite Hp.
    rewrite io_bind_outcome.
    destruct (build_prettier_command_dichotomy repr_other p parser config d
                Hflag Hopts) as [_ Hraise].
    rewrite (Hraise Hbad). cbn [fst snd]. by rewrite app_nil_r.
Qed.

(** X23. No executable, no process. For a text that is not blank and a
    supported language, when every tier of the discovery misses,
    [do_format] returns [None] after the probes of all the package
    manager executors and the "not found" note, and spawns no formatting
    process. *)
Theorem do_format_executable_not_found
    (repr_other : json → string) (w : world) (text lexer parser s : string)
    (config : gmap string json) (t1 : list event) :
  only_whitespace text = false →
  LEXER_TO_PARSER !! effective_lexer w lexer = Some parser →
  load_config w = (Ok config, t1) →
  default (JStr "") (config !! "prettier_path") = JStr s →
  custom_usable w config = false →
  Forall (fun name => is_file w (tools_path w name) = false) (bundled_names w) →
  is_file w (local_prettier w) = false →
  Forall (fun c => probe_ok w c = false) (package_managers w) →
  which_found w = None →
  do_format repr_other w text lexer
  = (Ok None,
     t1 ++ (probe_event <$> package_managers w)
        ++ [Print "NOTE: Prettier not found - install via npm/yarn/pnpm or configure path"]).
Proof.
  intros Htext Hparser Hload Hs Hc Hnb Hlocal Hne Hw.
  rewrite (do_format_after_load repr_other w text lexer parser config t1
             Htext Hparser Hload).
  rewrite (find_prettier_executable_string w config s Hs), Hc,
    (find_bundled_miss w _ Hnb), io_bind_pair, Hlocal,
    (find_package_manager_miss w _ Hne), io_bind_pair, Hw.
  rewrite io_bind_outcome. cbn [fst snd mret io_mret io_ret app].
  by rewrite !app_nil_r.
Qed.

(** X16. The timeout that reaches the process. The validation never raises
    and its result is always an [int] or [float] instance that is not
    [<= 0]: either the configured value (10 when the key is absent), with
    nothing printed, or 10 after one note. *)
Theorem checked_timeout_postcondition
    (repr_other : json → string) (config : gmap string json) :
  ∃ timeout t,
    checked_timeout repr_other config = (Ok timeout, t) ∧
    is_int_or_float timeout = true ∧
    le_zero timeout = false ∧
    ((timeout = default (JInt 10) (config !! "timeout_seconds") ∧ t = [])
     ∨ (timeout = JInt 10 ∧
        t = [Print ("NOTE: Invalid timeout '"
                    +:+ py_str repr_other (default (JInt 10) (config !! "timeout_seconds"))
                    +:+ "', using default: 10")])).
Proof.
  unfold checked_timeout.
  destruct (negb (is_int_or_float (default (JInt 10) (config !! "timeout_seconds")))
            || le_zero (default (JInt 10) (config !! "timeout_seconds"))) eqn:E.
  - eexists _, _. split; [reflexivity|]. repeat split; try done. by right.
  - apply orb_false_elim in E as [E1 E2]. apply negb_false_iff in E1.
    eexists _, _. split; [reflexivity|]. repeat split; try done. by left.
Qed.

(** X1. What every loaded configuration satisfies. [load_config] never
    raises; the configuration it returns has an options block that is a
    dict holding every key of the default options, and no comment key at
    its top level. *)
Theorem load_config_postcondition (w : world) :
  ∃ config t options,
    load_config w = (Ok config, t) ∧
    config !! "prettier_options" = Some (JDict options) ∧
    (∀ k, is_Some (DEFAULT_OPTIONS !! k) → is_Some (options !! k)) ∧
    (∀ k, is_comment_key k = true → config !! k = None).
Proof.
  destruct (load_config_invariant w) as (c & t & o & Hw & Ho & Hk & Hc & _).
  by exists c, t, o.
Qed.

(** * The menu commands *)

Lemma prettierrc_config_value :
  prettierrc_config
  = Ok (<["rangeEnd" := JInt 2147483647]> (filter_comment_keys DEFAULT_OPTIONS)).
Proof. vm_compute. reflexivity. Qed.

(** X24. The content of a created [.prettierrc]. The options that
    [create_prettierrc] writes have no comment key; [rangeEnd] is
    2147483647 and not the string ["Infinity"]; every other option has its
    default value; and every string-valued option holds a string. *)
Theorem prettierrc_config_content :
  ∃ c,
    prettierrc_config = Ok c ∧
    (∀ k, is_comment_key k = true → c !! k = None) ∧
    c !! "rangeEnd" = Some (JInt 2147483647) ∧
    (∀ k, is_comment_key k = false → k ≠ "rangeEnd" →
       c !! k = DEFAULT_OPTIONS !! k) ∧
    string_options_ok c = true.
Proof.
  eexists. split; [apply prettierrc_config_value|].
  split; [|split; [|split]].
  - intros k Hk. rewrite lookup_insert_ne by (by intros <-).
    by rewrite filter_comment_keys_lookup, Hk.
  - apply lookup_insert_eq.
  - intros k Hk Hne. by rewrite lookup_insert_ne, filter_comment_keys_lookup, Hk.
  - vm_compute. reflexivity.
Qed.

(** X25. [create_prettierrc] never overwrites. The command never raises,
    and it writes a file only for a saved document whose directory has no
    [.prettierrc] yet: the file written is the one of that directory and
    its content is the options above. For an unsaved document it only
    shows a message box; for an existing file it only opens it. *)
Theorem create_prettierrc_never_overwrites (h : host) :
  ∃ events,
    Command_create_prettierrc h = Ok events ∧
    (∀ p c, In (WritePrettierrc p c) events →
       ed_filename (machine h) ≠ "" ∧
       p = prettierrc_in h (ed_dirname (machine h)) ∧
       path_exists (machine h) p = false ∧
       prettierrc_config = Ok c) ∧
    (ed_filename (machine h) = "" → ∃ text, events = [MsgBox text IconWarning]) ∧
    (ed_filename (machine h) ≠ "" →
     path_exists (machine h) (prettierrc_in h (ed_dirname (machine h))) = true →
     events = [FileOpen (prettierrc_in h (ed_dirname (machine h)))]).
Proof.
  unfold Command_create_prettierrc.
  destruct prettierrc_config as [cfg|e] eqn:Hcfg;
    [clear Hcfg|by rewrite prettierrc_config_value in Hcfg].
  destruct (String.eqb_spec (ed_filename (machine h)) "") as [Hf|Hf].
  { eexists. split; [reflexivity|]. split; [|split]; [| |done].
    - intros p c H. cbn [In] in H. destruct H as [H|[]]. discriminate H.
    - intros _. eauto. }
  destruct (path_exists (machine h) (prettierrc_in h (ed_dirname (machine h)))) eqn:He.
  { eexists. split; [reflexivity|]. split; [|split]; [|done|done].
    intros p c H. cbn [In] in H. destruct H as [H|[]]. discriminate H. }
  rewrite result_bind_Ok.
  destruct (write_prettierrc h (prettierrc_in h (ed_dirname (machine h)))).
  - eexists. split; [reflexivity|]. split; [|split]; [|done|done].
    intros p c H. cbn [In] in H. destruct H as [H|[]]. discriminate H.
  - eexists. split; [reflexivity|]. split; [|split]; [|done|done].
    intros p c H. cbn [In] in H.
    destruct H as [H|[H|[H|[]]]]; try discriminate H.
    by injection H as <- <-.
Qed.

(** The [config] command. The command opens the configuration file
    last, whether it exists, was just created or could not be created; it
    runs [load_config] (which writes the defaults) only when the file does
    not exist, and leaves an existing file alone. *)
Theorem Command_config_opens_file (w : world) (p : string) :
  get_config_path w = Some p →
  (path_exists w p = true → Command_config w = [FileOpen p]) ∧
  (path_exists w p = false →
     Command_config w = (Core <$> (load_config w).2) ++ [FileOpen p]) ∧
  (In (Core (WriteDefaultConfig p)) (Command_config w) ↔
     path_exists w p = false ∧ create_config w p = None).
Proof.
  intros Hp. unfold Command_config. rewrite Hp.
  split; [by intros ->|]. split; [by intros ->|].
  unfold load_config. rewrite Hp.
  destruct (path_exists w p); simpl negb; cbv iota.
  - split; [|by intros [? _]]. intros H. simpl in H.
    destruct H as [H|[]]. discriminate H.
  - destruct (create_config w p) as [e|]; simpl.
    + split; [|by intros [_ ?]]. intros H.
      repeat (destruct H as [H|H]; [discriminate H|]). destruct H.
    + split; [done|]. intros _. by left.
Qed.

(** X18. [do_format] as a pipeline. For a text that is not blank and a
    supported language, once the configuration is loaded, an executable is
    found, the command is built and the timeout is checked, the result of
    [do_format] is the result of the invoker on that command, the
    unchanged text and that timeout; its trace is the traces of the
    stages in this order, with the "Formatting with parser" line between
    the command and the timeout check. *)
Theorem do_format_pipeline
    (repr_other : json → string) (w : world) (text lexer parser prettier_path : string)
    (config : gmap string json) (cmd : list string) (timeout : json)
    (t1 t2 t3 t4 : list event) :
  only_whitespace text = false →
  LEXER_TO_PARSER !! effective_lexer w lexer = Some parser →
  load_config w = (Ok config, t1) →
  find_prettier_executable w config = (Ok (Some prettier_path), t2) →
  prettier_path ≠ "" →
  build_prettier_command repr_other prettier_path parser config = (Ok cmd, t3) →
  checked_timeout repr_other config = (Ok timeout, t4) →
  do_format repr_other w text lexer
  = ((run_prettier repr_other w cmd text timeout).1,
     t1 ++ t2 ++ t3 ++ [Print ("Prettier: Formatting with parser: " +:+ parser)]
        ++ t4 ++ (run_prettier repr_other w cmd text timeout).2).
Proof.
  exact (do_format_invokes repr_other w text lexer parser prettier_path
           config cmd timeout t1 t2 t3 t4).
Qed.

(** * The further theorems at concrete inputs *)

Lemma build_prettier_command_by_table_witness :
  build_prettier_command (fun _ => "") "yarn exec prettier" "css"
    (dict_of [("use_prettier_config_file", JBool false);
              ("prettier_options",
               JDict (dict_of [("tabWidth", JInt 4); ("semi", JBool false);
                               ("endOfLine", JStr "crlf")]))])
  = (Ok ["yarn"; "exec"; "prettier"; "--parser"; "css"; "--no-color";
         "--tab-width"; "4"; "--no-semi"; "--end-of-line"; "crlf";
         "--range-start"; "0"; "--range-end"; "Infinity"],
     [Print "Prettier: Command: yarn exec prettier --parser css --no-color --tab-width 4 --no-semi --end-of-line crlf --range-start 0 --range-end Infinity"]).
Proof.
  apply (build_prettier_command_by_table (fun _ => "") "yarn exec prettier" "css"
           (dict_of [("use_prettier_config_file", JBool false);
                     ("prettier_options",
                      JDict (dict_of [("tabWidth", JInt 4); ("semi", JBool false);
                                      ("endOfLine", JStr "crlf")]))])
           (dict_of [("tabWidth", JInt 4); ("semi", JBool false);
                     ("endOfLine", JStr "crlf")])
           ["--tab-width"; "4"; "--no-semi"; "--end-of-line"; "crlf"]).
  - vm_compute. reflexivity.
  - vm_compute. reflexivity.
  - vm_compute. reflexivity.
Defined.

Lemma build_prettier_command_type_error_witness :
  build_prettier_command (fun _ => "") "/usr/bin/prettier" "babel"
    (dict_of [("use_prettier_config_file", JBool false);
              ("prettier_options", JDict (dict_of [("quoteProps", JInt 5)]))])
  = (Raise TypeError, []).
Proof.
  apply (build_prettier_command_type_error (fun _ => "") "/usr/bin/prettier" "babel"
           (dict_of [("use_prettier_config_file", JBool false);
                     ("prettier_options", JDict (dict_of [("quoteProps", JInt 5)]))])
           (dict_of [("quoteProps", JInt 5)])).
  - vm_compute. reflexivity.
  - vm_compute. reflexivity.
  - vm_compute. reflexivity.
Defined.

Lemma build_prettier_command_prefix_witness :
  ∃ rest,
    ["npx"; "prettier"; "--parser"; "babel"; "--no-color";
     "--range-start"; "0"; "--range-end"; "Infinity"]
    = seed_tokens "npx prettier" ++ ["--parser"; "babel"; "--no-color"] ++ rest.
Proof.
  apply (build_prettier_command_prefix (fun _ => "") "npx prettier" "babel"
           (dict_of [("use_prettier_config_file", JBool false)])).
  vm_compute. reflexivity.
Defined.

Lemma build_prettier_command_no_options_witness :
  (build_prettier_command (fun _ => "") "/usr/bin/prettier" "json"
     (dict_of [("use_prettier_config_file", JInt 0)])).1
  = Ok ["/usr/bin/prettier"; "--parser"; "json"; "--no-color";
        "--range-start"; "0"; "--range-end"; "Infinity"].
Proof.
  apply (build_prettier_command_no_options (fun _ => "") "/usr/bin/prettier" "json"
           (dict_of [("use_prettier_config_file", JInt 0)])).
  - vm_compute. reflexivity.
  - left. vm_compute. reflexivity.
Defined.

Lemma build_prettier_command_emits_options_witness :
  In "--use-tabs"
     ["/usr/bin/prettier"; "--parser"; "babel"; "--no-color"; "--use-tabs";
      "--range-start"; "0"; "--range-end"; "Infinity"].
Proof.
  destruct (build_prettier_command_emits_options (fun _ => "") "/usr/bin/prettier"
              "babel"
              (dict_of [("use_prettier_config_file", JBool false);
                        ("prettier_options", JDict (dict_of [("useTabs", JInt 1)]))])
              (dict_of [("useTabs", JInt 1)])
              ["/usr/bin/prettier"; "--parser"; "babel"; "--no-color"; "--use-tabs";
               "--range-start"; "0"; "--range-end"; "Infinity"]
              "useTabs" "--use-tabs") as [Hflag _].
  - vm_compute. reflexivity.
  - vm_compute. reflexivity.
  - vm_compute. reflexivity.
  - apply Hflag.
    + simpl. tauto.
    + vm_compute. reflexivity.
Defined.

Lemma seed_tokens_split_witness :
  seed_tokens "/opt/my tools/prettier" = ["/opt/my"; "tools/prettier"] ∧
  seed_tokens "  npx   prettier " = ["npx"; "prettier"].
Proof.
  destruct (seed_tokens_split "/opt/my tools/prettier") as [Hsplit _].
  destruct Hsplit as (_ & _ & Hcut & _).
  { vm_compute. reflexivity. }
  destruct (seed_tokens_split "  npx   prettier ") as [Hsplit' _].
  destruct Hsplit' as (_ & Hwords & _).
  { vm_compute. reflexivity. }
  split.
  - apply (Hcut "/opt/my" "tools/prettier").
    + discriminate.
    + discriminate.
    + vm_compute. reflexivity.
    + vm_compute. reflexivity.
    + reflexivity.
  - apply (Hwords "  " [("npx", "   "); ("prettier", " ")]).
    + vm_compute. reflexivity.
    + vm_compute. reflexivity.
    + reflexivity.
Defined.

Lemma find_prettier_executable_priority_witness :
  find_prettier_executable
    (sample_world_with ["/work/node_modules/.bin/prettier"] (Some "npx prettier")
       (Some "/usr/bin/prettier") DecodeError (Ok (0, "", "")))
    (dict_of [("prettier_path", JStr "")])
  = (Ok (Some "/work/node_modules/.bin/prettier"),
     [Print "Prettier: Using local project installation: /work/node_modules/.bin/prettier"]).
Proof.
  destruct (find_prettier_executable_priority
              (sample_world_with ["/work/node_modules/.bin/prettier"]
                 (Some "npx prettier") (Some "/usr/bin/prettier") DecodeError
                 (Ok (0, "", "")))
              (dict_of [("prettier_path", JStr "")]) "")
    as [_ Hrest].
  - vm_compute. reflexivity.
  - destruct Hrest as (_ & Hlocal & _).
    + vm_compute. reflexivity.
    + apply Hlocal.
      * repeat constructor.
      * vm_compute. reflexivity.
Defined.

Lemma find_prettier_executable_sound_witness :
  (∃ s, dict_of [("prettier_path", JStr "")] !! "prettier_path" = Some (JStr s) ∧
        "yarn exec prettier" = strip s ∧ "yarn exec prettier" ≠ "" ∧
        path_exists (sample_world_with [] (Some "yarn exec prettier") None
                       DecodeError (Ok (0, "", ""))) "yarn exec prettier" = true)
  ∨ (∃ name,
       In name (bundled_names (sample_world_with [] (Some "yarn exec prettier") None
                                 DecodeError (Ok (0, "", "")))) ∧
       "yarn exec prettier"
       = tools_path (sample_world_with [] (Some "yarn exec prettier") None
                       DecodeError (Ok (0, "", ""))) name ∧
       is_file (sample_world_with [] (Some "yarn exec prettier") None
                  DecodeError (Ok (0, "", ""))) "yarn exec prettier" = true)
  ∨ ("yarn exec prettier"
     = local_prettier (sample_world_with [] (Some "yarn exec prettier") None
                         DecodeError (Ok (0, "", ""))) ∧
     is_file (sample_world_with [] (Some "yarn exec prettier") None
                DecodeError (Ok (0, "", ""))) "yarn exec prettier" = true)
  ∨ (In "yarn exec prettier"
        (package_managers (sample_world_with [] (Some "yarn exec prettier") None
                             DecodeError (Ok (0, "", "")))) ∧
     probe_ok (sample_world_with [] (Some "yarn exec prettier") None
                 DecodeError (Ok (0, "", ""))) "yarn exec prettier" = true)
  ∨ (which_prettier (sample_world_with [] (Some "yarn exec prettier") None
                       DecodeError (Ok (0, "", ""))) = Some "yarn exec prettier" ∧
     "yarn exec prettier" ≠ "").
Proof.
  apply (find_prettier_executable_sound
           (sample_world_with [] (Some "yarn exec prettier") None
              DecodeError (Ok (0, "", "")))
           (dict_of [("prettier_path", JStr "")]) "yarn exec prettier"
           [Probe ["npx"; "prettier"; "--version"];
            Probe ["yarn"; "exec"; "prettier"; "--version"];
            Print "Prettier: Using package manager: yarn exec prettier"]).
  vm_compute. reflexivity.
Defined.

Lemma find_prettier_executable_none_witness :
  (find_prettier_executable
     (sample_world_with [] None None DecodeError (Ok (0, "", "")))
     (dict_of [("prettier_path", JStr "  ")])).1 = Ok None.
Proof.
  apply (find_prettier_executable_none
           (sample_world_with [] None None DecodeError (Ok (0, "", "")))
           (dict_of [("prettier_path", JStr "  ")]) "  ").
  - vm_compute. reflexivity.
  - split; [vm_compute; reflexivity|].
    split; [repeat constructor|].
    split; [vm_compute; reflexivity|].
    split; [repeat constructor|].
    vm_compute. reflexivity.
Defined.

Lemma find_prettier_executable_no_probe_witness :
  Forall (fun e => is_probe e = false)
    (find_prettier_executable
       (sample_world_with ["/app/tools/Prettier/prettier"] (Some "npx prettier")
          None DecodeError (Ok (0, "", "")))
       (dict_of [("prettier_path", JStr "")])).2.
Proof.
  apply (find_prettier_executable_no_probe
           (sample_world_with ["/app/tools/Prettier/prettier"] (Some "npx prettier")
              None DecodeError (Ok (0, "", "")))
           (dict_of [("prettier_path", JStr "")]) "").
  - vm_compute. reflexivity.
  - right. left. apply Exists_cons_hd. vm_compute. reflexivity.
Defined.

Lemma load_config_overrides_witness :
  ∃ config options,
    load_config
      (sample_world
         (Parsed (JDict (dict_of [("timeout_seconds", JInt 30);
                                  ("prettier_options",
                                   JDict (dict_of [("semi", JBool false);
                                                   ("plugins", JStr "x")]))])))
         (Ok (0, "", "")))
    = (Ok config, []) ∧
    config !! "prettier_options" = Some (JDict options) ∧
    config !! "timeout_seconds" = Some (JInt 30) ∧
    config !! "use_prettier_config_file" = Some (JBool true) ∧
    options !! "semi" = Some (JBool false) ∧
    options !! "plugins" = Some (JStr "x") ∧
    options !! "tabWidth" = Some (JInt 2).
Proof.
  destruct (load_config_overrides
              (sample_world
                 (Parsed (JDict (dict_of [("timeout_seconds", JInt 30);
                                          ("prettier_options",
                                           JDict (dict_of [("semi", JBool false);
                                                           ("plugins", JStr "x")]))])))
                 (Ok (0, "", "")))
              "/settings/cuda_fmt_prettier.json"
              (dict_of [("timeout_seconds", JInt 30);
                        ("prettier_options",
                         JDict (dict_of [("semi", JBool false);
                                         ("plugins", JStr "x")]))])
              (dict_of [("semi", JBool false); ("plugins", JStr "x")]))
    as (config & options & Hload & Hblock & Htop & Hopt).
  - reflexivity.
  - reflexivity.
  - reflexivity.
  - vm_compute. reflexivity.
  - exists config, options. split; [exact Hload|]. split; [exact Hblock|].
    split; [rewrite Htop; [vm_compute; reflexivity|discriminate|reflexivity]|].
    split; [rewrite Htop; [vm_compute; reflexivity|discriminate|reflexivity]|].
    split; [rewrite Hopt; [vm_compute; reflexivity|reflexivity]|].
    split; [rewrite Hopt; [vm_compute; reflexivity|reflexivity]|].
    rewrite Hopt; [vm_compute; reflexivity|reflexivity].
Defined.

Lemma load_config_falls_back_witness :
  (load_config
     (sample_world
        (Parsed (JDict (dict_of [("timeout_seconds", JInt 30);
                                 ("prettier_options", JInt 3)])))
        (Ok (0, "", "")))).1
  = Ok (filter_comment_keys DEFAULT_CONFIG).
Proof.
  apply (load_config_falls_back
           (sample_world
              (Parsed (JDict (dict_of [("timeout_seconds", JInt 30);
                                       ("prettier_options", JInt 3)])))
              (Ok (0, "", "")))
           "/settings/cuda_fmt_prettier.json").
  - reflexivity.
  - right. right. right. right.
    exists (dict_of [("timeout_seconds", JInt 30); ("prettier_options", JInt 3)]),
      (JInt 3).
    split; [reflexivity|]. split; [vm_compute; reflexivity|]. discriminate.
Defined.

Lemma do_format_success_sound_witness :
  ∃ cmd timeout stderr,
    In (Spawn cmd "const x=1" None timeout)
       (do_format (fun _ => "")
          (sample_world DecodeError (Ok (0, "const x = 1;", "")))
          "const x=1" "JavaScript").2 ∧
    run_process (sample_world DecodeError (Ok (0, "const x = 1;", "")))
      cmd "const x=1" None timeout
    = Ok (0, "const x = 1;", stderr).
Proof.
  destruct (do_format_success_sound (fun _ => "")
              (sample_world DecodeError (Ok (0, "const x = 1;", "")))
              "const x=1" "JavaScript" "const x = 1;"
              (do_format (fun _ => "")
                 (sample_world DecodeError (Ok (0, "const x = 1;", "")))
                 "const x=1" "JavaScript").2)
    as (_ & cmd & timeout & stderr & Hin & Hrun).
  - vm_compute. reflexivity.
  - vm_compute. reflexivity.
  - exists cmd, timeout, stderr. split; [exact Hin|exact Hrun].
Defined.

Lemma do_format_raises_on_ill_typed_config_witness :
  do_format (fun _ => "")
    (sample_world (Parsed (JDict (dict_of [("prettier_path", JInt 5)])))
                  (Ok (0, "", "")))
    "const x=1" "JavaScript"
  = (Raise AttributeError, []).
Proof.
  destruct (do_format_raises_on_ill_typed_config (fun _ => "")
              (sample_world (Parsed (JDict (dict_of [("prettier_path", JInt 5)])))
                            (Ok (0, "", "")))
              "const x=1" "JavaScript" "babel"
              (merged_shape (dict_of [("prettier_path", JInt 5)]) ∅) [])
    as [Hpath _].
  - vm_compute. reflexivity.
  - vm_compute. reflexivity.
  - vm_compute. reflexivity.
  - apply (Hpath (JInt 5)).
    + vm_compute. reflexivity.
    + discriminate.
Defined.

Lemma do_format_executable_not_found_witness :
  do_format (fun _ => "")
    (sample_world_with [] None None (Parsed (JDict ∅)) (Ok (0, "", "")))
    "const x=1" "JavaScript"
  = (Ok None,
     [Probe ["npx"; "prettier"; "--version"];
      Probe ["yarn"; "exec"; "prettier"; "--version"];
      Probe ["pnpm"; "exec"; "prettier"; "--version"];
      Probe ["bunx"; "prettier"; "--version"];
      Print "NOTE: Prettier not found - install via npm/yarn/pnpm or configure path"]).
Proof.
  apply (do_format_executable_not_found (fun _ => "")
           (sample_world_with [] None None (Parsed (JDict ∅)) (Ok (0, "", "")))
           "const x=1" "JavaScript" "babel" ""
           (filter_comment_keys DEFAULT_CONFIG) []).
  - vm_compute. reflexivity.
  - vm_compute. reflexivity.
  - vm_compute. reflexivity.
  - vm_compute. reflexivity.
  - vm_compute. reflexivity.
  - repeat constructor.
  - vm_compute. reflexivity.
  - repeat constructor.
  - vm_compute. reflexivity.
Defined.

Lemma Command_config_opens_file_witness :
  Command_config (sample_world DecodeError (Ok (0, "", "")))
  = [FileOpen "/settings/cuda_fmt_prettier.json"].
Proof.
  destruct (Command_config_opens_file (sample_world DecodeError (Ok (0, "", "")))
              "/settings/cuda_fmt_prettier.json") as [Hexists _].
  - reflexivity.
  - apply Hexists. reflexivity.
Defined.

Lemma do_format_pipeline_witness :
  do_format (fun _ => "")
    (sample_world (Parsed (JDict (dict_of [("timeout_seconds", JInt 30)])))
                  (Raise TimeoutExpired))
    "const x=1" ""
  = (Ok None,
     [Probe ["npx"; "prettier"; "--version"];
      Probe ["yarn"; "exec"; "prettier"; "--version"];
      Probe ["pnpm"; "exec"; "prettier"; "--version"];
      Probe ["bunx"; "prettier"; "--version"];
      Print "Prettier: Found in PATH: /usr/bin/prettier";
      Print "Prettier: Command: /usr/bin/prettier --parser babel --no-color";
      Print "Prettier: Formatting with parser: babel";
      Spawn ["/usr/bin/prettier"; "--parser"; "babel"; "--no-color"] "const x=1"
            None (JInt 30);
      Print "ERROR: Prettier timed out (>30s)"]).
Proof.
  rewrite (do_format_pipeline (fun _ => "")
             (sample_world (Parsed (JDict (dict_of [("timeout_seconds", JInt 30)])))
                           (Raise TimeoutExpired))
             "const x=1" "" "babel" "/usr/bin/prettier"
             (merged_shape (dict_of [("timeout_seconds", JInt 30)]) ∅)
             ["/usr/bin/prettier"; "--parser"; "babel"; "--no-color"]
             (JInt 30)
             []
             [Probe ["npx"; "prettier"; "--version"];
              Probe ["yarn"; "exec"; "prettier"; "--version"];
              Probe ["pnpm"; "exec"; "prettier"; "--version"];
              Probe ["bunx"; "prettier"; "--version"];
              Print "Prettier: Found in PATH: /usr/bin/prettier"]
             [Print "Prettier: Command: /usr/bin/prettier --parser babel --no-color"]
             []).
  - vm_compute. reflexivity.
  - vm_compute. reflexivity.
  - vm_compute. reflexivity.
  - vm_compute. reflexivity.
  - vm_compute. reflexivity.
  - discriminate.
  - vm_compute. reflexivity.
  - vm_compute. reflexivity.
Defined.
